(** * CONSENSUS: the fund deduplicator and the stock tally of [consensus_app.py]

    A shallow embedding of the data-processing part of the Streamlit script
    [consensus_app.py]: [filter_similar_funds], [process_stock_appearances],
    [get_funds] and [load_data], together with the two fixed values the
    button handler passes to [load_data], the address [get_morningstar_data]
    requests, and the total and the maximum among the metrics of the page.

    Data frames are lists of rows in index order.  A Python [int] is a [Z].
    Calls that can raise return a [result].  The remote services (the
    Morningstar screener and the per-fund holdings lookup) are functions given
    as section variables, so that "the same underlying data" is a value one
    can quantify over.  The widgets ([st.warning], [st.error], [st.spinner],
    the table, the chart and the download button) write to the page only and
    are left out; [st.cache_data] memoises [load_data] on its arguments and is
    cleared by the button handler before every call, so a call is modelled by
    its body. *)

From stdpp Require Import base numbers list strings sorting pretty.
From Stdlib Require Import QArith.

Local Open Scope Z_scope.

(** ** Results of calls that can raise *)

Inductive exn : Type :=
  | KeyError (label : string)
  | TypeError.

Inductive result (A : Type) : Type :=
  | Ok (a : A)
  | Raise (e : exn).

Arguments Ok {A} a.
Arguments Raise {A} e.

#[global] Instance result_ret : MRet result := λ A a, Ok a.

#[global] Instance result_bind : MBind result := λ A B k m,
  match m with
  | Ok a => k a
  | Raise e => Raise e
  end.

(** ** The similarity score *)

Module Fuzz.

(** Length of a longest common subsequence of two character lists. *)
Fixpoint lcs (xs ys : list Ascii.ascii) : nat :=
  match xs with
  | [] => 0%nat
  | x :: xs' =>
      (fix scan (zs : list Ascii.ascii) : nat :=
         match zs with
         | [] => 0%nat
         | z :: zs' =>
             if Ascii.eqb x z then S (lcs xs' zs')
             else Nat.max (lcs xs' zs) (scan zs')
         end) ys
  end.

(** [int(round(num / den))] for [den > 0]: Python 3 rounds a half to the even
    neighbour. *)
Definition intr (num den : Z) : Z :=
  let q := num `div` den in
  let r := num `mod` den in
  if bool_decide (2 * r < den) then q
  else if bool_decide (den < 2 * r) then q + 1
  else if Z.even q then q else q + 1.

(** Modelled from the spec: [fuzz.ratio] of the fuzzywuzzy package, which the
    script imports and whose code is not part of the repository.  The spec
    calls it "a normalized string-similarity score in [0,100]
    (edit-distance-based ratio)".  The model follows the package: equal
    strings score 100, an empty string scores 0 against a different one, and
    otherwise the score is [2 * M / T] scaled to 100 and rounded, where [T] is
    the sum of the two lengths and [M] the number of matched characters (here
    the longest common subsequence, which is what the Levenshtein back end of
    the package computes).  The theorems below hold for every score function;
    this one instantiates them on concrete names. *)
Definition ratio (s1 s2 : string) : Z :=
  if decide (s1 = s2) then 100
  else if bool_decide (String.length s1 = 0%nat) || bool_decide (String.length s2 = 0%nat)
  then 0
  else
    let m := lcs (String.list_ascii_of_string s1) (String.list_ascii_of_string s2) in
    intr (100 * (2 * Z.of_nat m)) (Z.of_nat (String.length s1 + String.length s2)).

End Fuzz.

(** ** Fund records *)

(** One row of the frame [pd.DataFrame(fund_data)] built by [get_funds]. *)
Record FundRow : Type := {
  Id : string;
  Fund : string;
  Return10A : Q;
  Stocks : list string
}.

(** ** The deduplicator *)

Section Deduplicator.

(** [fuzz.ratio] *)
Variable ratio : string → string → Z.

(** The inner loop of [filter_similar_funds]: the value of [keep] after
    scanning [funds[:i]], given as [earlier]. *)
Fixpoint keep (similarity_threshold : Z) (fund1 : string) (earlier : list string) : bool :=
  match earlier with
  | [] => true
  | fund2 :: rest =>
      if bool_decide (similarity_threshold < ratio fund1 fund2) then false
      else keep similarity_threshold fund1 rest
  end.

(** One iteration of the outer loop, on the pair [(i, fund1)] of
    [enumerate(funds)]. *)
Definition keep_step (similarity_threshold : Z) (funds : list string)
    (funds_to_keep : list string) (entry : nat * string) : list string :=
  if keep similarity_threshold entry.2 (take entry.1 funds)
  then funds_to_keep ++ [entry.2]
  else funds_to_keep.

(** The list [funds_to_keep] when the outer loop ends. *)
Definition funds_to_keep (similarity_threshold : Z) (funds : list string) : list string :=
  foldl (keep_step similarity_threshold funds) [] (imap pair funds).

(** [funds_df[funds_df['Fund'].isin(funds_to_keep)]] *)
Definition filter_similar_funds (funds_df : list FundRow) (similarity_threshold : Z)
    : list FundRow :=
  let funds := Fund <$> funds_df in
  filter (λ row, Fund row ∈ funds_to_keep similarity_threshold funds) funds_df.

(** The deduplicator as the spec words it: a candidate is compared with the
    names of the records kept so far, and dropped when one of them scores
    above the threshold. *)
Fixpoint dedupe_against_kept (threshold : Z) (kept : list FundRow) (records : list FundRow)
    : list FundRow :=
  match records with
  | [] => kept
  | candidate :: rest =>
      if bool_decide (Exists (λ k, threshold < ratio (Fund candidate) (Fund k)) kept)
      then dedupe_against_kept threshold kept rest
      else dedupe_against_kept threshold (kept ++ [candidate]) rest
  end.

Definition dedupe_spec (records : list FundRow) (threshold : Z) : list FundRow :=
  dedupe_against_kept threshold [] records.

End Deduplicator.

(** ** The tally *)

(** The frame of counts: the index holds the ticker, the column
    ['Appearances'] the count. *)
Abbreviation StockCounts := (list (string * Z)).

Module Pandas.

(** Number of entries of [stocks] equal to [stock]. *)
Definition appearances (stock : string) (stocks : list string) : Z :=
  Z.of_nat (length (filter (λ s, s = stock) stocks)).

(** The distinct values of a list, in the order in which they first occur. *)
Fixpoint unique (stocks : list string) : list string :=
  match stocks with
  | [] => []
  | stock :: rest => stock :: filter (λ s, s ≠ stock) (unique rest)
  end.

(** Insertion into a frame sorted by descending count; a row goes before the
    rows whose count is not larger, so rows inserted from the right keep
    their order among equal counts. *)
Fixpoint insert_desc (row : string * Z) (sorted : StockCounts) : StockCounts :=
  match sorted with
  | [] => [row]
  | r :: rest =>
      if bool_decide (r.2 ≤ row.2) then row :: r :: rest
      else r :: insert_desc row rest
  end.

Definition sort_desc (counts : StockCounts) : StockCounts :=
  foldr insert_desc [] counts.

(** Modelled from the spec: [pd.Series(stocks).value_counts().to_frame('Appearances')]
    of the pandas package, whose code is not part of the repository.  The
    spec: "count occurrences per ticker; ... sort descending by count (stable
    tie-break: first-encountered ticker order ...)".  One row per distinct
    ticker. *)
Definition value_counts (stocks : list string) : StockCounts :=
  sort_desc ((λ stock, (stock, appearances stock stocks)) <$> unique stocks).

(** Modelled from the spec: [DataFrame.drop(label)] of the pandas package,
    whose code is not part of the repository: the rows indexed by [label]
    are removed, and a label that is not in the index raises [KeyError]
    (which is why the script tests the index first). *)
Definition drop (label : string) (df : StockCounts) : result StockCounts :=
  if decide (label ∈ df.*1) then Ok (filter (λ row, row.1 ≠ label) df)
  else Raise (KeyError label).

End Pandas.

(** [[stock for stocks in df['Stocks'] if stocks for stock in stocks]] *)
Definition all_stocks (df : list FundRow) : list string :=
  concat (filter (λ stocks, stocks ≠ []) (Stocks <$> df)).

Definition process_stock_appearances (df : list FundRow) (min_appearances : Z)
    : result StockCounts :=
  let stocks := all_stocks df in
  let stock_counts := Pandas.value_counts stocks in
  stock_counts ←
    (if decide ("GOOG" ∈ stock_counts.*1) then Pandas.drop "GOOG" stock_counts
     else Ok stock_counts);
  mret (filter (λ row, min_appearances ≤ row.2) stock_counts).

(** ** The pipeline *)

(** The default values of the keyword arguments. *)
Definition similarity_threshold_default : Z := 85.
Definition min_appearances_default : Z := 4.

Unset Elimination Schemes.

(** A JSON value, as [response.json()] hands it to the script. *)
Inductive json : Type :=
  | JNull
  | JBool (b : bool)
  | JNum (q : Q)
  | JStr (s : string)
  | JArr (items : list json)
  | JObj (members : list (string * json)).

Set Elimination Schemes.

(** One entry of ['rows'] in the screener's answer; a field is [None] when
    the key is absent.  The category is the one field the script reads
    outside the inner [try], so its value is kept as the JSON value it is;
    the id and the name are strings and the return a number, as the request
    asks for them. *)
Record ScreenerRow : Type := {
  SecId : option string;
  LegalName : option string;
  CategoryName : option json;
  ReturnM120 : option Q
}.

Record ScreenerJson : Type := {
  rows : option (list ScreenerRow)
}.

(** One row of the frame returned by [fund.holdings(holdingType="equity")]. *)
Record Holding : Type := {
  country : string;
  ticker : string
}.

Abbreviation Headers := (list (string * string)).

(** ['RV' in name] *)
Definition contains (needle hay : string) : bool :=
  match String.index 0 needle hay with
  | Some _ => true
  | None => false
  end.

(** [needle in value] for a string [needle]: the substring test on a string,
    the element test on a list, the key test on a dictionary; on [None], a
    boolean or a number Python raises [TypeError]. *)
Definition py_in (needle : string) (value : json) : result bool :=
  match value with
  | JStr s => Ok (contains needle s)
  | JArr items =>
      Ok (existsb (λ item, match item with
                           | JStr s => bool_decide (s = needle)
                           | _ => false
                           end) items)
  | JObj members => Ok (bool_decide (needle ∈ members.*1))
  | JNull | JBool _ | JNum _ => Raise TypeError
  end.

(** ['RV' in row.get('CategoryName', '')], the test of line 80 (the script
    continues with the next row when it is false). *)
Definition rv_in_category (row : ScreenerRow) : result bool :=
  py_in "RV" (default (JStr "") (CategoryName row)).

Section Pipeline.

(** [fuzz.ratio] *)
Variable ratio : string → string → Z.

(** [get_morningstar_data(page, headers)]: the parsed answer of the
    screener, or [None] when the request or the parsing raises. *)
Variable get_morningstar_data : Z → Headers → option ScreenerJson.

(** [mstarpy.Funds(term=sec_id).holdings(holdingType="equity")], or [None]
    when either call raises. *)
Variable holdings : string → option (list Holding).

(** The body of the inner [try]: the record appended to [fund_data], if
    any.  A missing key or a failed lookup raises and the row is skipped. *)
Definition fund_of_row (row : ScreenerRow) : option FundRow :=
  sec_id ← SecId row;
  holdings_df ← holdings sec_id;
  let us_stocks :=
    ticker <$> take 10 (filter (λ h, country h = "United States") holdings_df) in
  match us_stocks with
  | [] => None
  | _ =>
      legal_name ← LegalName row;
      return_m120 ← ReturnM120 row;
      Some {| Id := sec_id; Fund := legal_name;
              Return10A := return_m120; Stocks := us_stocks |}
  end.

(** The loop over the rows of one page: the records it appends to
    [fund_data].  The category test stands outside the inner [try]: when it
    raises, the handler of the page takes over, the rows that follow are not
    read, and the records appended so far stay. *)
Fixpoint funds_of_rows (page_rows : list ScreenerRow) : list FundRow :=
  match page_rows with
  | [] => []
  | row :: rest =>
      match rv_in_category row with
      | Raise _ => []
      | Ok false => funds_of_rows rest
      | Ok true =>
          match fund_of_row row with
          | Some fund_record => fund_record :: funds_of_rows rest
          | None => funds_of_rows rest
          end
      end
  end.

(** The records one page contributes to [fund_data]; none when the request
    raises. *)
Definition funds_of_page (headers : Headers) (page : Z) : list FundRow :=
  match get_morningstar_data page headers with
  | None => []
  | Some funds_json => funds_of_rows (default [] (rows funds_json))
  end.

Definition get_funds (headers : Headers) : result StockCounts :=
  let fund_data := funds_of_page headers 1 ++ funds_of_page headers 2 in
  match fund_data with
  | [] => Ok []
  | _ =>
      let df_funds := fund_data in
      let df_funds := filter_similar_funds ratio df_funds similarity_threshold_default in
      process_stock_appearances df_funds min_appearances_default
  end.

Definition load_data (min_appearances similarity_threshold : Z) (headers : Headers)
    : StockCounts :=
  match get_funds headers with
  | Ok df =>
      match df with
      | [] => []
      | _ => df
      end
  | Raise _ => []
  end.

End Pipeline.

(** The fixed values of the script. *)
Definition MIN_APPEARANCES : Z := 6.
Definition SIMILARITY_THRESHOLD : Z := 85.

Definition headers : Headers :=
  [("Accept", "text/html,application/xhtml+xml,application/xml;q=0.9,image/webp,           */*;q=0.8");
   ("Accept-Encoding", "gzip, deflate, sdch, br");
   ("Accept-Language", "en-US,en;q=0.8,es-ES;q=0.5,es;q=0.3");
   ("Cache-Control", "no-cache");
   ("dnt", "1");
   ("Pragma", "no-cache");
   ("Upgrade-Insecure-Requests", "1");
   ("User-Agent", "Mozilla/5.0 (Macintosh; Intel Mac OS X 10.15; rv:93.0)           Gecko/20100101 Firefox/93.0")].

(** [df_stocks] in the button handler; the table and the chart show it when
    it is not empty. *)
Definition df_stocks (ratio : string → string → Z)
    (get_morningstar_data : Z → Headers → option ScreenerJson)
    (holdings : string → option (list Holding)) : StockCounts :=
  load_data ratio get_morningstar_data holdings MIN_APPEARANCES SIMILARITY_THRESHOLD headers.

(** ** The claims of the spec that the script does not meet, as predicates *)

(** "The candidate is dropped if and only if its similarity score with some
    already-kept record's name exceeds the threshold." *)
Definition dropped_iff_similar_to_kept (ratio : string → string → Z)
    (records : list FundRow) (threshold : Z) : Prop :=
  ∀ (i : nat) (candidate : FundRow),
    records !! i = Some candidate →
    candidate ∉ filter_similar_funds ratio records threshold ↔
    ∃ (j : nat) (kept : FundRow),
      (j < i)%nat ∧ records !! j = Some kept ∧
      kept ∈ filter_similar_funds ratio records threshold ∧
      threshold < ratio (Fund candidate) (Fund kept).

(** "Removes exactly the records whose name is an exact duplicate of an
    earlier record's name, and no others." *)
Definition removes_exactly_duplicates (ratio : string → string → Z)
    (records : list FundRow) (threshold : Z) : Prop :=
  ∀ (i : nat) (candidate : FundRow),
    records !! i = Some candidate →
    candidate ∉ filter_similar_funds ratio records threshold ↔
    ∃ (j : nat) (earlier : FundRow),
      (j < i)%nat ∧ records !! j = Some earlier ∧ Fund earlier = Fund candidate.

(** ** Concrete inputs *)

Definition fund (id name : string) (stocks : list string) : FundRow :=
  {| Id := id; Fund := name; Return10A := 0%Q; Stocks := stocks |}.

(** Three names, each an extension of the one before: the second is close to
    the first, the third is close to the second only. *)
Definition chained_funds : list FundRow :=
  [fund "F1" "Alpha Fund" ["AAPL"];
   fund "F2" "Alpha Fund A" ["AAPL"];
   fund "F3" "Alpha Fund A EUR" ["AAPL"]].

(** Two funds under one name. *)
Definition twin_funds : list FundRow :=
  [fund "F1" "Alpha Fund" ["AAPL"];
   fund "F2" "Alpha Fund" ["MSFT"]].

(** Two names without a common character. *)
Definition unrelated_funds : list FundRow :=
  [fund "F1" "Orion" ["AAPL"];
   fund "F2" "Vesta" ["MSFT"]].

(** A screener with one page of four equity funds, each holding one ticker
    four of them share; the second page fails. *)
Definition four_rows : list ScreenerRow :=
  (λ p, {| SecId := Some p.1; LegalName := Some p.2;
           CategoryName := Some (JStr "RV USA Cap. Grande Blend");
           ReturnM120 := Some 0%Q |})
  <$> [("F1", "Orion"); ("F2", "Vesta"); ("F3", "Kudu"); ("F4", "Lymph")].

Definition four_funds_screener (page : Z) (h : Headers) : option ScreenerJson :=
  if bool_decide (page = 1) then Some {| rows := Some four_rows |} else None.

Definition apple_holdings (sec_id : string) : option (list Holding) :=
  Some [{| country := "United States"; ticker := "AAPL" |};
        {| country := "Spain"; ticker := "SAN" |}].

(** Records whose tickers all stay below a minimum of 2, once GOOG is set
    aside. *)
Definition sparse_funds : list FundRow :=
  [fund "F1" "Orion" ["AAPL"; "GOOG"];
   fund "F2" "Vesta" ["MSFT"; "GOOG"]].

(** ** The request to the screener *)

Module Screener.

Definition base_url : string :=
  "https://lt.morningstar.com/api/rest.svc/klr5zyak8x/security/screener".

(** The dictionary [params], in insertion order; [str(page)] is the decimal
    numeral of the page. *)
Definition params (page : Z) : list (string * string) :=
  [("page", pretty page);
   ("pageSize", "50");
   ("sortOrder", "ReturnM120 desc");
   ("outputType", "json");
   ("version", "1");
   ("languageId", "es-ES");
   ("currencyId", "EUR");
   ("universeIds", "FOESP$$ALL");
   ("securityDataPoints", "SecId|LegalName|CategoryName|ReturnM120");
   ("filters", "");
   ("term", "");
   ("subUniverseId", "")].

(** ['&'.join(f'{k}={v}' for k, v in params.items())] *)
Definition query (page : Z) : string :=
  String.concat "&" ((λ kv, kv.1 +:+ "=" +:+ kv.2) <$> params page).

Definition url (page : Z) : string :=
  base_url +:+ "?" +:+ query page.

(** [get_morningstar_data], over [requests_get url headers], which stands for
    [requests.get(url, headers=headers).json()]: the parsed answer, or [None]
    when the request or the parsing raises. *)
Definition get_morningstar_data
    (requests_get : string → Headers → option ScreenerJson)
    (page : Z) (headers : Headers) : option ScreenerJson :=
  requests_get (url page) headers.

End Screener.

(** ** The metrics of the page *)

(** The first two of the three metrics shown under the chart, computed when
    [df_stocks] is not empty: [len(df_stocks)] and
    [df_stocks['Appearances'].max()].  The third one, the mean rounded to two
    decimals, is a floating-point number and is left out. *)
Record Metrics : Type := {
  total_analysed : nat;
  max_appearances : Z
}.

Definition metrics (df_stocks : StockCounts) : option Metrics :=
  match df_stocks with
  | [] => None
  | row :: rest =>
      Some {| total_analysed := length df_stocks;
              max_appearances := foldl Z.max row.2 rest.*2 |}
  end.

(** ** The order of the tally *)

(** Rows in descending order of their count. *)
Definition by_count_desc (r1 r2 : string * Z) : Prop := r2.2 ≤ r1.2.

(** ** More concrete inputs *)

(** Three funds, two of which hold AAPL; no fund lists a ticker twice. *)
Definition three_funds : list FundRow :=
  [fund "F1" "Orion" ["AAPL"; "MSFT"];
   fund "F2" "Vesta" ["MSFT"; "GOOG"];
   fund "F3" "Kudu" ["AAPL"; "NVDA"]].

(** Twelve holdings, eleven of them in the United States. *)
Definition twelve_holdings (sec_id : string) : option (list Holding) :=
  Some ((λ t, {| country := if bool_decide (t = "SAN") then "Spain" else "United States";
                 ticker := t |})
        <$> ["AAPL"; "SAN"; "MSFT"; "NVDA"; "AMZN"; "META"; "TSLA"; "AVGO";
             "JPM"; "LLY"; "V"; "XOM"]).



(** Holdings known for every fund but F5. *)
Definition all_but_f5_holdings (sec_id : string) : option (list Holding) :=
  if bool_decide (sec_id = "F5") then None else apple_holdings sec_id.

(** A screener whose first page lists the four equity funds and then F5, a
    bond fund. *)
Definition mixed_screener (page : Z) (h : Headers) : option ScreenerJson :=
  if bool_decide (page = 1)
  then Some {| rows := Some
         (four_rows ++
          [{| SecId := Some "F5"; LegalName := Some "Zebu";
              CategoryName := Some (JStr "RF Euro"); ReturnM120 := Some 0%Q |}]) |}
  else None.

(** The two twins after a fund with another name. *)
Definition late_twin_funds : list FundRow :=
  [fund "F0" "Orion" ["NVDA"];
   fund "F1" "Alpha Fund" ["AAPL"];
   fund "F2" "Alpha Fund" ["MSFT"]].

(** A page of three equity funds whose second row has a null category. *)
Definition null_category_rows : list ScreenerRow :=
  [{| SecId := Some "F1"; LegalName := Some "Orion";
      CategoryName := Some (JStr "RV USA"); ReturnM120 := Some 0%Q |};
   {| SecId := Some "F2"; LegalName := Some "Vesta";
      CategoryName := Some JNull; ReturnM120 := Some 0%Q |};
   {| SecId := Some "F3"; LegalName := Some "Kudu";
      CategoryName := Some (JStr "RV USA"); ReturnM120 := Some 0%Q |}].

(** * Facts about the similarity score *)

Lemma lcs_le_l (xs ys : list Ascii.ascii) : (Fuzz.lcs xs ys ≤ length xs)%nat.
Proof.
  revert ys. induction xs as [|x xs IH]; intros ys; [simpl; lia|].
  induction ys as [|y ys IHys]; [simpl; lia|].
  simpl in *. destruct (Ascii.eqb x y).
  - specialize (IH ys). lia.
  - specialize (IH (y :: ys)). lia.
Qed.

Lemma lcs_le_r (xs ys : list Ascii.ascii) : (Fuzz.lcs xs ys ≤ length ys)%nat.
Proof.
  revert ys. induction xs as [|x xs IH]; intros ys; [simpl; lia|].
  induction ys as [|y ys IHys]; [simpl; lia|].
  simpl in *. destruct (Ascii.eqb x y).
  - specialize (IH ys). lia.
  - specialize (IH (y :: ys)). simpl in IH. lia.
Qed.

Lemma length_list_ascii_of_string (s : string) :
  length (String.list_ascii_of_string s) = String.length s.
Proof. induction s as [|c s IH]; simpl; congruence. Qed.

Lemma intr_bounds (num den k : Z) :
  0 < den → 0 ≤ num → num ≤ k * den → 0 ≤ Fuzz.intr num den ≤ k.
Proof.
  intros Hden Hnum Hk. unfold Fuzz.intr.
  pose proof (Z.div_mod num den ltac:(lia)) as Hdm.
  pose proof (Z.mod_pos_bound num den Hden) as Hr.
  pose proof (Z.div_pos num den Hnum Hden) as Hq.
  assert (num `div` den ≤ k) as Hqk by (apply Z.div_le_upper_bound; lia).
  assert (num `div` den = k → num `mod` den = 0) as Hfull by nia.
  repeat case_bool_decide; try destruct (Z.even _); lia.
Qed.

Lemma ratio_bounds (s1 s2 : string) : 0 ≤ Fuzz.ratio s1 s2 ≤ 100.
Proof.
  unfold Fuzz.ratio. case_decide; [lia|].
  destruct (bool_decide (String.length s1 = 0%nat) || bool_decide (String.length s2 = 0%nat))
    eqn:Hempty; [lia|].
  apply orb_false_iff in Hempty as [H1 H2].
  apply bool_decide_eq_false in H1, H2.
  pose proof (lcs_le_l (String.list_ascii_of_string s1) (String.list_ascii_of_string s2)) as Hl.
  pose proof (lcs_le_r (String.list_ascii_of_string s1) (String.list_ascii_of_string s2)) as Hr.
  rewrite !length_list_ascii_of_string in *.
  apply intr_bounds; lia.
Qed.

Lemma ratio_refl (s : string) : Fuzz.ratio s s = 100.
Proof. unfold Fuzz.ratio. by case_decide. Qed.

(** * Two facts about [filter] *)

Lemma filter_keeps_all {A} (P : A → Prop) `{∀ x, Decision (P x)} (l : list A) :
  Forall P l → filter P l = l.
Proof.
  induction 1 as [|x l Hx _ IH]; [done|].
  rewrite filter_cons. case_decide; [by rewrite IH | done].
Qed.

Lemma filter_keeps_none {A} (P : A → Prop) `{∀ x, Decision (P x)} (l : list A) :
  Forall (λ x, ¬ P x) l → filter P l = [].
Proof.
  induction 1 as [|x l Hx _ IH]; [done|].
  rewrite filter_cons. case_decide; [done | by rewrite IH].
Qed.

(** * Facts about the deduplicator *)

Section DeduplicatorFacts.

Variable ratio : string → string → Z.

Lemma keep_true (thr : Z) (fund1 : string) (earlier : list string) :
  keep ratio thr fund1 earlier = true ↔ Forall (λ fund2, ratio fund1 fund2 ≤ thr) earlier.
Proof.
  induction earlier as [|fund2 rest IH]; simpl.
  - split; [constructor | done].
  - rewrite Forall_cons. case_bool_decide as Hlt.
    + split; [done | intros [Hle _]; lia].
    + rewrite IH. split; [intros ?; split; [lia | done] | by intros [_ ?]].
Qed.

Lemma keep_false (thr : Z) (fund1 : string) (earlier : list string) :
  keep ratio thr fund1 earlier = false ↔ Exists (λ fund2, thr < ratio fund1 fund2) earlier.
Proof.
  induction earlier as [|fund2 rest IH]; simpl.
  - split; [done | by intros ?%Exists_nil].
  - rewrite Exists_cons. case_bool_decide as Hlt.
    + split; [by left | done].
    + rewrite IH. split; [by right | intros [Hgt | ?]; [lia | done]].
Qed.

(** The names collected after the outer loop has run over any list of
    entries: those whose scan of the earlier names of [all] ended with
    [keep] set. *)
Lemma elem_of_kept_entries (thr : Z) (all l : list string) (f : string) :
  f ∈ foldl (keep_step ratio thr all) [] (imap pair l) ↔
  ∃ i, l !! i = Some f ∧ keep ratio thr f (take i all) = true.
Proof.
  induction l as [|x l IH] using rev_ind.
  - simpl. split; [by intros ?%elem_of_nil | by intros (i & ? & _)].
  - rewrite imap_app, foldl_app. simpl. rewrite Nat.add_0_r.
    unfold keep_step at 1. simpl.
    destruct (keep ratio thr x (take (length l) all)) eqn:Hk.
    + rewrite elem_of_app, list_elem_of_singleton, IH. split.
      * intros [(i & Hi & Hkeep) | ->].
        -- exists i. split; [|done]. by apply lookup_app_l_Some.
        -- exists (length l). split; [|done]. by rewrite lookup_app_r, Nat.sub_diag.
      * intros (i & Hi & Hkeep).
        apply lookup_snoc_Some in Hi as [[Hlt Hi] | [-> ->]]; [left; eauto | by right].
    + rewrite IH. split.
      * intros (i & Hi & Hkeep). exists i. split; [|done]. by apply lookup_app_l_Some.
      * intros (i & Hi & Hkeep).
        apply lookup_snoc_Some in Hi as [[Hlt Hi] | [-> ->]]; [eauto | congruence].
Qed.

Lemma elem_of_funds_to_keep (thr : Z) (funds : list string) (f : string) :
  f ∈ funds_to_keep ratio thr funds ↔
  ∃ i, funds !! i = Some f ∧ Forall (λ fund2, ratio f fund2 ≤ thr) (take i funds).
Proof.
  unfold funds_to_keep. rewrite elem_of_kept_entries.
  by setoid_rewrite keep_true.
Qed.

Lemma elem_of_filter_similar_funds (df : list FundRow) (thr : Z) (row : FundRow) :
  row ∈ filter_similar_funds ratio df thr ↔
  row ∈ df ∧
  ∃ i, (Fund <$> df) !! i = Some (Fund row) ∧
       Forall (λ fund2, ratio (Fund row) fund2 ≤ thr) (take i (Fund <$> df)).
Proof.
  unfold filter_similar_funds. rewrite list_elem_of_filter, elem_of_funds_to_keep. tauto.
Qed.


End DeduplicatorFacts.

(** * The claims about the deduplicator *)

(** C1, as stated, fails: with the names "Alpha Fund", "Alpha Fund A" and
    "Alpha Fund A EUR" and threshold 85, the third record is dropped although
    the only kept record, the first, scores 77 against it; it is dropped for
    its score of 86 against the second record, which was itself dropped.
    Comparing against kept records only would keep the first and the third. *)
Lemma dropped_for_a_dropped_name :
  filter_similar_funds Fuzz.ratio chained_funds 85 = [fund "F1" "Alpha Fund" ["AAPL"]] ∧
  dedupe_spec Fuzz.ratio chained_funds 85
    = [fund "F1" "Alpha Fund" ["AAPL"]; fund "F3" "Alpha Fund A EUR" ["AAPL"]] ∧
  ¬ dropped_iff_similar_to_kept Fuzz.ratio chained_funds 85.
Proof.
  assert (filter_similar_funds Fuzz.ratio chained_funds 85
          = [fund "F1" "Alpha Fund" ["AAPL"]]) as Hout by (by vm_compute).
  split; [done|]. split; [by vm_compute|].
  intros Hclaim.
  destruct (Hclaim 2%nat (fund "F3" "Alpha Fund A EUR" ["AAPL"]) eq_refl) as [Hdrop _].
  destruct Hdrop as (j & kept & _ & _ & Hkept & Hscore).
  - rewrite Hout. intros Hin%list_elem_of_singleton. discriminate Hin.
  - rewrite Hout in Hkept. apply list_elem_of_singleton in Hkept as ->.
    vm_compute in Hscore. discriminate Hscore.
Qed.

(** C1 (amended): when the names of the input are pairwise different, a
    record is dropped if and only if its name scores above the threshold
    against the name of some earlier record of the input, whether that
    record was kept or dropped. *)
Theorem dropped_iff_similar_to_earlier (ratio : string → string → Z)
    (df : list FundRow) (thr : Z) (i : nat) (candidate : FundRow) :
  NoDup (Fund <$> df) →
  df !! i = Some candidate →
  candidate ∉ filter_similar_funds ratio df thr ↔
  ∃ (j : nat) (earlier : FundRow),
    (j < i)%nat ∧ df !! j = Some earlier ∧ thr < ratio (Fund candidate) (Fund earlier).
Proof.
  intros Hnodup Hi.
  assert ((Fund <$> df) !! i = Some (Fund candidate)) as Hname
    by (by rewrite list_lookup_fmap, Hi).
  rewrite elem_of_filter_similar_funds. split.
  - intros Hdropped.
    destruct (keep ratio thr (Fund candidate) (take i (Fund <$> df))) eqn:Hkeep.
    + exfalso. apply Hdropped. split; [by eapply list_elem_of_lookup_2|].
      exists i. split; [done | by apply keep_true].
    + apply keep_false, Exists_exists in Hkeep as (name & Hin & Hscore).
      apply elem_of_take in Hin as (j & Hj & Hlt).
      apply list_lookup_fmap_Some in Hj as (earlier & -> & Hj). eauto.
  - intros (j & earlier & Hlt & Hj & Hscore) (_ & i' & Hi' & Hall).
    assert (i' = i) as -> by (by eapply NoDup_lookup).
    rewrite Forall_forall in Hall.
    assert (ratio (Fund candidate) (Fund earlier) ≤ thr); [|lia].
    apply Hall, elem_of_take. exists j. split; [|done].
    by rewrite list_lookup_fmap, Hj.
Qed.

(** The chained names: the third record is dropped, and an earlier name scores
    above 85 against it. *)
Lemma dropped_iff_similar_to_earlier_witness :
  NoDup (Fund <$> chained_funds) ∧
  chained_funds !! 2%nat = Some (fund "F3" "Alpha Fund A EUR" ["AAPL"]) ∧
  (fund "F3" "Alpha Fund A EUR" ["AAPL"] ∉ filter_similar_funds Fuzz.ratio chained_funds 85 ↔
   ∃ (j : nat) (earlier : FundRow),
     (j < 2)%nat ∧ chained_funds !! j = Some earlier ∧
     85 < Fuzz.ratio "Alpha Fund A EUR" (Fund earlier)).
Proof.
  assert (NoDup (Fund <$> chained_funds)) as Hnodup by compute_done.
  split; [exact Hnodup|]. split; [reflexivity|].
  exact (dropped_iff_similar_to_earlier Fuzz.ratio chained_funds 85 2
           (fund "F3" "Alpha Fund A EUR" ["AAPL"]) Hnodup eq_refl).
Defined.

(** C3, at the input that breaks it: two funds under the one name "Alpha
    Fund", with the default threshold 85.  The loop collects the name once,
    and the final selection by name returns both records, whose names score
    100 against each other. *)
Theorem twin_funds_both_kept :
  filter_similar_funds Fuzz.ratio twin_funds similarity_threshold_default = twin_funds ∧
  funds_to_keep Fuzz.ratio similarity_threshold_default (Fund <$> twin_funds) = ["Alpha Fund"] ∧
  ∃ r1 r2 : FundRow,
    filter_similar_funds Fuzz.ratio twin_funds similarity_threshold_default !! 0%nat = Some r1 ∧
    filter_similar_funds Fuzz.ratio twin_funds similarity_threshold_default !! 1%nat = Some r2 ∧
    similarity_threshold_default < Fuzz.ratio (Fund r1) (Fund r2).
Proof.
  split; [by vm_compute|]. split; [by vm_compute|].
  exists (fund "F1" "Alpha Fund" ["AAPL"]), (fund "F2" "Alpha Fund" ["MSFT"]).
  by vm_compute.
Qed.

(** C4, as stated, fails: at threshold 100 the second of two funds with the
    same name is not removed. *)
Lemma exact_duplicate_survives_at_100 :
  filter_similar_funds Fuzz.ratio twin_funds 100 = twin_funds ∧
  ¬ removes_exactly_duplicates Fuzz.ratio twin_funds 100.
Proof.
  assert (filter_similar_funds Fuzz.ratio twin_funds 100 = twin_funds) as Hout
    by (by vm_compute).
  split; [done|]. intros Hclaim.
  destruct (Hclaim 1%nat (fund "F2" "Alpha Fund" ["MSFT"]) eq_refl) as [_ Hremoved].
  apply Hremoved.
  - exists 0%nat, (fund "F1" "Alpha Fund" ["AAPL"]). split; [lia|]. by split.
  - rewrite Hout. apply list_elem_of_lookup. by exists 1%nat.
Qed.

(** C4 (amended): a score never exceeds 100, so at threshold 100 the
    deduplicator removes no record: its output is its input. *)
Theorem threshold_100_removes_nothing (ratio : string → string → Z) (df : list FundRow) :
  (∀ a b : string, ratio a b ≤ 100) →
  filter_similar_funds ratio df 100 = df.
Proof.
  intros Hmax. unfold filter_similar_funds.
  apply filter_keeps_all, Forall_forall. intros row Hrow.
  apply elem_of_funds_to_keep.
  apply list_elem_of_lookup in Hrow as [i Hi]. exists i. split.
  - by rewrite list_lookup_fmap, Hi.
  - apply Forall_forall. intros fund2 _. apply Hmax.
Qed.

(** The modelled score stays within 100, and the chained names all survive at
    threshold 100. *)
Lemma threshold_100_removes_nothing_witness :
  (∀ a b : string, Fuzz.ratio a b ≤ 100) ∧
  filter_similar_funds Fuzz.ratio chained_funds 100 = chained_funds.
Proof.
  split.
  - intros a b. apply ratio_bounds.
  - apply (threshold_100_removes_nothing Fuzz.ratio chained_funds).
    intros a b. apply ratio_bounds.
Defined.

(** C5, as stated, fails: "Orion" and "Vesta" have no character in common,
    their score is 0, which does not exceed the threshold 0, and both records
    survive. *)
Lemma two_survive_at_0 :
  unrelated_funds ≠ [] ∧
  Fuzz.ratio "Vesta" "Orion" = 0 ∧
  filter_similar_funds Fuzz.ratio unrelated_funds 0 = unrelated_funds ∧
  ¬ (length (filter_similar_funds Fuzz.ratio unrelated_funds 0) ≤ 1)%nat.
Proof.
  split; [done|]. split; [by vm_compute|]. split; [by vm_compute|].
  vm_compute. lia.
Qed.

(** C5 (amended): at threshold 0 a record whose name does not score above 0
    against the name of any earlier record is kept, so more than one record
    can survive.  For a non-empty input in which no later record repeats the
    name of the first, at most one record survives if and only if the name of
    every later record scores above 0 against the name of some earlier
    record. *)
Theorem threshold_0_survivors (ratio : string → string → Z)
    (first : FundRow) (rest : list FundRow) :
  (∀ (j : nat) (row : FundRow),
     (first :: rest) !! j = Some row →
     (∀ (i : nat) (earlier : FundRow),
        (i < j)%nat → (first :: rest) !! i = Some earlier →
        ratio (Fund row) (Fund earlier) ≤ 0) →
     row ∈ filter_similar_funds ratio (first :: rest) 0) ∧
  ((∀ row : FundRow, row ∈ rest → Fund row ≠ Fund first) →
   (length (filter_similar_funds ratio (first :: rest) 0) ≤ 1)%nat ↔
   ∀ (j : nat) (row : FundRow),
     (0 < j)%nat → (first :: rest) !! j = Some row →
     ∃ (i : nat) (earlier : FundRow),
       (i < j)%nat ∧ (first :: rest) !! i = Some earlier ∧
       0 < ratio (Fund row) (Fund earlier)).
Proof.
  split.
  - intros j row Hj Hzero. apply elem_of_filter_similar_funds.
    split; [by eapply list_elem_of_lookup_2|].
    exists j. split; [by rewrite list_lookup_fmap, Hj|].
    apply Forall_forall. intros name (i & Hi & Hlt)%elem_of_take.
    apply list_lookup_fmap_Some in Hi as (earlier & -> & Hi). eauto.
  - intros Hfresh.
    assert (Fund first ∈ funds_to_keep ratio 0 (Fund <$> first :: rest)) as Hfirst.
    { apply elem_of_funds_to_keep. exists 0%nat. split; [done | constructor]. }
    unfold filter_similar_funds at 1. rewrite filter_cons_True by exact Hfirst.
    split.
    + intros Hlen j row Hpos Hj.
      destruct (keep ratio 0 (Fund row) (take j (Fund <$> first :: rest))) eqn:Hkeep.
      * exfalso. destruct j as [|j]; [lia|]. simpl in Hj.
        assert (row ∈ filter
                  (λ r, Fund r ∈ funds_to_keep ratio 0 (Fund <$> first :: rest)) rest)
          as Hkept.
        { apply list_elem_of_filter. split; [|by eapply list_elem_of_lookup_2].
          apply elem_of_funds_to_keep. exists (S j).
          split; [by rewrite list_lookup_fmap; simpl; rewrite Hj | by apply keep_true]. }
        destruct (filter _ rest); [by apply elem_of_nil in Hkept | simpl in Hlen; lia].
      * apply keep_false, Exists_exists in Hkeep as (name & Hin & Hscore).
        apply elem_of_take in Hin as (i & Hi & Hlt).
        apply list_lookup_fmap_Some in Hi as (earlier & -> & Hi). eauto.
    + intros Hsimilar. rewrite filter_keeps_none; [done|].
      apply Forall_forall. intros row Hrow (k & Hk & Hall)%elem_of_funds_to_keep.
      apply list_lookup_fmap_Some in Hk as (row' & Hname & Hk).
      destruct k as [|k].
      { injection Hk as <-. by destruct (Hfresh row Hrow). }
      destruct (Hsimilar (S k) row' ltac:(lia) Hk) as (i & earlier & Hlt & Hi & Hscore).
      rewrite Forall_forall in Hall.
      assert (ratio (Fund row) (Fund earlier) ≤ 0); [|rewrite Hname in *; lia].
      apply Hall, elem_of_take. exists i. split; [|done].
      by rewrite list_lookup_fmap, Hi.
Qed.

(** "Vesta" scores 0 against "Orion" and is kept; among the chained names
    each later one scores above 0 against "Alpha Fund", and one record
    survives. *)
Lemma threshold_0_survivors_witness :
  fund "F2" "Vesta" ["MSFT"] ∈ filter_similar_funds Fuzz.ratio unrelated_funds 0 ∧
  (∀ row : FundRow,
     row ∈ [fund "F2" "Alpha Fund A" ["AAPL"]; fund "F3" "Alpha Fund A EUR" ["AAPL"]] →
     Fund row ≠ "Alpha Fund") ∧
  ((length (filter_similar_funds Fuzz.ratio chained_funds 0) ≤ 1)%nat ↔
   ∀ (j : nat) (row : FundRow),
     (0 < j)%nat → chained_funds !! j = Some row →
     ∃ (i : nat) (earlier : FundRow),
       (i < j)%nat ∧ chained_funds !! i = Some earlier ∧
       0 < Fuzz.ratio (Fund row) (Fund earlier)).
Proof.
  assert (∀ (i : nat) (earlier : FundRow),
            (i < 1)%nat → unrelated_funds !! i = Some earlier →
            Fuzz.ratio "Vesta" (Fund earlier) ≤ 0) as Hzero.
  { intros i earlier Hlt Hi. destruct i as [|i]; [|lia].
    injection Hi as <-. by vm_compute. }
  assert (∀ row : FundRow,
            row ∈ [fund "F2" "Alpha Fund A" ["AAPL"];
                   fund "F3" "Alpha Fund A EUR" ["AAPL"]] →
            Fund row ≠ "Alpha Fund") as Hfresh.
  { intros row Hrow.
    repeat (apply elem_of_cons in Hrow as [-> | Hrow]);
      [done | done | by apply elem_of_nil in Hrow]. }
  split.
  - exact (proj1 (threshold_0_survivors Fuzz.ratio (fund "F1" "Orion" ["AAPL"])
                    [fund "F2" "Vesta" ["MSFT"]])
             1%nat (fund "F2" "Vesta" ["MSFT"]) eq_refl Hzero).
  - split; [exact Hfresh|].
    exact (proj2 (threshold_0_survivors Fuzz.ratio (fund "F1" "Alpha Fund" ["AAPL"])
                    [fund "F2" "Alpha Fund A" ["AAPL"];
                     fund "F3" "Alpha Fund A EUR" ["AAPL"]]) Hfresh).
Defined.

(** C6: the output of the deduplicator is a subsequence of its input: its
    records are records of the input, in the order of the input, and the
    empty input gives the empty output. *)
Theorem filter_similar_funds_subsequence (ratio : string → string → Z)
    (df : list FundRow) (thr : Z) :
  filter_similar_funds ratio df thr `sublist_of` df ∧
  (∀ row : FundRow, row ∈ filter_similar_funds ratio df thr → row ∈ df) ∧
  filter_similar_funds ratio [] thr = [].
Proof.
  split; [apply sublist_filter|]. split; [|done].
  intros row Hrow. by apply list_elem_of_filter in Hrow as [_ ?].
Qed.

(** * Facts about the tally *)

Lemma elem_of_insert_desc (row x : string * Z) (sorted : StockCounts) :
  x ∈ Pandas.insert_desc row sorted ↔ x = row ∨ x ∈ sorted.
Proof.
  induction sorted as [|r rest IH]; simpl.
  - rewrite list_elem_of_singleton, elem_of_nil. tauto.
  - case_bool_decide; rewrite !elem_of_cons; [tauto|]. rewrite IH. tauto.
Qed.

Lemma elem_of_sort_desc (x : string * Z) (counts : StockCounts) :
  x ∈ Pandas.sort_desc counts ↔ x ∈ counts.
Proof.
  induction counts as [|row rest IH]; simpl; [done|].
  by rewrite elem_of_insert_desc, elem_of_cons, IH.
Qed.

Lemma elem_of_unique (stock : string) (stocks : list string) :
  stock ∈ Pandas.unique stocks ↔ stock ∈ stocks.
Proof.
  induction stocks as [|s rest IH]; [done|].
  change (Pandas.unique (s :: rest)) with (s :: filter (λ x, x ≠ s) (Pandas.unique rest)).
  rewrite !elem_of_cons, list_elem_of_filter, IH.
  destruct (decide (stock = s)); tauto.
Qed.

Lemma elem_of_value_counts (stock : string) (count : Z) (stocks : list string) :
  (stock, count) ∈ Pandas.value_counts stocks ↔
  stock ∈ stocks ∧ count = Pandas.appearances stock stocks.
Proof.
  unfold Pandas.value_counts. rewrite elem_of_sort_desc, list_elem_of_fmap. split.
  - intros (s & Heq & Hs). simpl in Heq. injection Heq as -> ->.
    split; [by apply elem_of_unique | done].
  - intros [Hs ->]. exists stock. by rewrite elem_of_unique.
Qed.

(** The test of the index guards the call of [drop], so the tally never
    raises; its value is the frame of counts without GOOG, cut at the
    minimum. *)
Lemma process_stock_appearances_eq (df : list FundRow) (min_appearances : Z) :
  process_stock_appearances df min_appearances
  = Ok (filter (λ row, min_appearances ≤ row.2)
          (filter (λ row, row.1 ≠ "GOOG") (Pandas.value_counts (all_stocks df)))).
Proof.
  unfold process_stock_appearances, Pandas.drop. simpl.
  destruct (decide ("GOOG" ∈ (Pandas.value_counts (all_stocks df)).*1)) as [Hin | Hout];
    simpl; [done|].
  do 2 f_equal. symmetry. apply filter_keeps_all, Forall_forall.
  intros row Hrow Heq. apply Hout. rewrite <- Heq. by apply list_elem_of_fmap_2.
Qed.

Lemma elem_of_process_stock_appearances (df : list FundRow) (min_appearances : Z)
    (stock : string) (count : Z) :
  (stock, count) ∈ filter (λ row, min_appearances ≤ row.2)
                     (filter (λ row, row.1 ≠ "GOOG") (Pandas.value_counts (all_stocks df))) ↔
  stock ∈ all_stocks df ∧ stock ≠ "GOOG" ∧
  count = Pandas.appearances stock (all_stocks df) ∧ min_appearances ≤ count.
Proof. rewrite !list_elem_of_filter, elem_of_value_counts. simpl. tauto. Qed.

(** * The claims about the tally *)

(** C7: the tally returns a frame, and GOOG is not in its index, whatever
    the stock lists of the records hold. *)
Theorem goog_never_in_tally (df : list FundRow) (min_appearances : Z) :
  ∃ out : StockCounts,
    process_stock_appearances df min_appearances = Ok out ∧ "GOOG" ∉ out.*1.
Proof.
  eexists. split; [apply process_stock_appearances_eq|].
  intros ([stock count] & Hkey & Hrow)%list_elem_of_fmap. simpl in Hkey. subst stock.
  apply elem_of_process_stock_appearances in Hrow as (_ & Hne & _). done.
Qed.

(** C8: the tally returns a frame, and each of its rows holds a ticker with
    its number of appearances in the stock lists of the records, which is at
    least the minimum asked for. *)
Theorem tally_counts_reach_minimum (df : list FundRow) (min_appearances : Z) :
  ∃ out : StockCounts,
    process_stock_appearances df min_appearances = Ok out ∧
    ∀ (stock : string) (count : Z),
      (stock, count) ∈ out →
      count = Pandas.appearances stock (all_stocks df) ∧ min_appearances ≤ count.
Proof.
  eexists. split; [apply process_stock_appearances_eq|].
  intros stock count Hrow. apply elem_of_process_stock_appearances in Hrow. tauto.
Qed.

(** C9: when no ticker other than GOOG reaches the minimum (in particular
    when there is no record), the tally returns the empty frame; it does not
    raise. *)
Theorem tally_empty_when_nothing_qualifies (df : list FundRow) (min_appearances : Z) :
  (∀ stock : string,
     stock ∈ all_stocks df → stock ≠ "GOOG" →
     Pandas.appearances stock (all_stocks df) < min_appearances) →
  process_stock_appearances df min_appearances = Ok [].
Proof.
  intros Hbelow. rewrite process_stock_appearances_eq. f_equal.
  destruct (filter _ _) as [|[stock count] rest] eqn:Hout; [done|].
  assert ((stock, count) ∈ (stock, count) :: rest) as Hrow by left.
  rewrite <- Hout in Hrow.
  apply elem_of_process_stock_appearances in Hrow as (Hin & Hne & -> & Hmin).
  specialize (Hbelow stock Hin Hne). lia.
Qed.

(** AAPL and MSFT appear once each, GOOG twice: at a minimum of 2 the tally is
    empty. *)
Lemma tally_empty_when_nothing_qualifies_witness :
  (∀ stock : string,
     stock ∈ all_stocks sparse_funds → stock ≠ "GOOG" →
     Pandas.appearances stock (all_stocks sparse_funds) < 2) ∧
  process_stock_appearances sparse_funds 2 = Ok [].
Proof.
  assert (∀ stock : string,
            stock ∈ all_stocks sparse_funds → stock ≠ "GOOG" →
            Pandas.appearances stock (all_stocks sparse_funds) < 2) as Hbelow.
  { intros stock Hin Hne. vm_compute in Hin.
    repeat (apply elem_of_cons in Hin as [-> | Hin]);
      solve [done | by vm_compute | by apply elem_of_nil in Hin]. }
  split; [exact Hbelow|].
  exact (tally_empty_when_nothing_qualifies sparse_funds 2 Hbelow).
Defined.

(** With no record at all the hypothesis of C9 is void. *)
Lemma tally_of_no_records (min_appearances : Z) :
  process_stock_appearances [] min_appearances = Ok [].
Proof. by rewrite process_stock_appearances_eq. Qed.

(** * Facts about the pipeline *)

Section PipelineFacts.

Variable ratio : string → string → Z.
Variable get_morningstar_data : Z → Headers → option ScreenerJson.
Variable holdings : string → option (list Holding).

(** [get_funds] does not raise. *)
Lemma get_funds_returns (h : Headers) :
  ∃ df : StockCounts, get_funds ratio get_morningstar_data holdings h = Ok df.
Proof.
  unfold get_funds. destruct (_ ++ _); [by eexists|].
  rewrite process_stock_appearances_eq. by eexists.
Qed.

(** With no record fetched, [get_funds] returns the empty frame without
    calling the deduplicator or the tally. *)
Lemma get_funds_of_no_records (h : Headers) :
  funds_of_page get_morningstar_data holdings h 1
    ++ funds_of_page get_morningstar_data holdings h 2 = [] →
  get_funds ratio get_morningstar_data holdings h = Ok [].
Proof. unfold get_funds. by intros ->. Qed.

(** What the page can rely on: a ticker in the frame [load_data] returns has
    at least the default minimum of appearances, whatever minimum was
    passed. *)
Lemma load_data_counts_reach_default (min_appearances similarity_threshold : Z)
    (h : Headers) (stock : string) (count : Z) :
  (stock, count)
    ∈ load_data ratio get_morningstar_data holdings min_appearances similarity_threshold h →
  min_appearances_default ≤ count.
Proof.
  unfold load_data, get_funds. destruct (_ ++ _); [by intros ?%elem_of_nil|].
  rewrite process_stock_appearances_eq.
  destruct (filter _ _) eqn:Hout; [by intros ?%elem_of_nil|].
  rewrite <- Hout. by intros (_ & _ & _ & ?)%elem_of_process_stock_appearances.
Qed.

End PipelineFacts.

(** * The claims about the pipeline *)

(** C2, at an input that breaks it: four equity funds with unlike names that
    all hold AAPL.  The button handler passes [MIN_APPEARANCES = 6] to
    [load_data], yet the frame it shows lists AAPL with 4 appearances. *)
Theorem displayed_ticker_below_minimum :
  df_stocks Fuzz.ratio four_funds_screener apple_holdings = [("AAPL", 4)] ∧
  4 < MIN_APPEARANCES ∧
  min_appearances_default = 4.
Proof. split; [by vm_compute|]. split; [by vm_compute | done]. Qed.

(** C10: [load_data] returns the same frame whatever its first two
    arguments are; the frame is the tally, at the default minimum 4, of the
    fetched records deduplicated at the default threshold 85 (the empty frame
    when nothing was fetched). *)
Theorem load_data_ignores_thresholds (ratio : string → string → Z)
    (get_morningstar_data : Z → Headers → option ScreenerJson)
    (holdings : string → option (list Holding))
    (min_appearances similarity_threshold min_appearances' similarity_threshold' : Z)
    (h : Headers) :
  load_data ratio get_morningstar_data holdings min_appearances similarity_threshold h
  = load_data ratio get_morningstar_data holdings min_appearances' similarity_threshold' h ∧
  ∃ out : StockCounts,
    process_stock_appearances
      (filter_similar_funds ratio
         (funds_of_page get_morningstar_data holdings h 1
            ++ funds_of_page get_morningstar_data holdings h 2)
         similarity_threshold_default)
      min_appearances_default = Ok out ∧
    load_data ratio get_morningstar_data holdings min_appearances similarity_threshold h
    = match funds_of_page get_morningstar_data holdings h 1
              ++ funds_of_page get_morningstar_data holdings h 2 with
      | [] => []
      | _ => out
      end.
Proof.
  split; [done|].
  eexists. split; [apply process_stock_appearances_eq|].
  unfold load_data, get_funds. destruct (_ ++ _); [done|].
  rewrite process_stock_appearances_eq. by destruct (filter _ _).
Qed.

(** * Further properties of the deduplicator *)

Lemma filter_sublist_impl {A} (P Q : A → Prop)
    `{∀ x, Decision (P x)} `{∀ x, Decision (Q x)} (l : list A) :
  (∀ x, x ∈ l → P x → Q x) → filter P l `sublist_of` filter Q l.
Proof.
  induction l as [|x l IH]; intros Himpl; [done|].
  assert (filter P l `sublist_of` filter Q l) as Hrest
    by (apply IH; intros y Hy; apply Himpl; by right).
  rewrite !filter_cons. destruct (decide (P x)) as [HP | HP].
  - rewrite decide_True by (apply Himpl; [left | done]). by constructor.
  - case_decide; [by constructor | done].
Qed.

Section DeduplicatorMore.

Variable ratio : string → string → Z.

(** The first record is never dropped: the deduplicator's output starts with
    the record the input starts with, so a non-empty input never gives an
    empty output. *)
Theorem first_record_always_kept (df : list FundRow) (thr : Z) :
  head (filter_similar_funds ratio df thr) = head df.
Proof.
  destruct df as [|first rest]; [done|].
  unfold filter_similar_funds. rewrite filter_cons_True; [done|].
  apply elem_of_funds_to_keep. exists 0%nat. split; [done | constructor].
Qed.

(** Running the deduplicator on its own output changes nothing. *)
Theorem filter_similar_funds_idempotent (df : list FundRow) (thr : Z) :
  filter_similar_funds ratio (filter_similar_funds ratio df thr) thr
  = filter_similar_funds ratio df thr.
Proof.
  unfold filter_similar_funds at 1.
  apply filter_keeps_all, Forall_forall. intros row Hrow.
  apply elem_of_filter_similar_funds in Hrow as (_ & i & Hi & Hall).
  apply list_lookup_fmap_Some in Hi as (r & Hname & Hi).
  apply elem_of_funds_to_keep.
  assert (Fund r ∈ funds_to_keep ratio thr (Fund <$> df)) as Hr.
  { apply elem_of_funds_to_keep. exists i.
    split; [by rewrite list_lookup_fmap, Hi | by rewrite <- Hname]. }
  unfold filter_similar_funds.
  remember (funds_to_keep ratio thr (Fund <$> df)) as kept_names eqn:Hnames.
  clear Hnames.
  set (P := λ row : FundRow, Fund row ∈ kept_names).
  rewrite <- (take_drop_middle df i r Hi).
  rewrite filter_app, filter_cons_True by exact Hr.
  exists (length (filter P (take i df))). rewrite fmap_app, fmap_cons. split.
  - rewrite lookup_app_r by (by rewrite length_fmap).
    by rewrite length_fmap, Nat.sub_diag, Hname.
  - rewrite take_app_length' by (by rewrite length_fmap).
    apply Forall_forall. intros name (kept & -> & Hkept)%list_elem_of_fmap.
    apply list_elem_of_filter in Hkept as [_ Hkept].
    rewrite Forall_forall in Hall. apply Hall.
    rewrite <- fmap_take. by apply list_elem_of_fmap_2.
Qed.

(** Raising the threshold never drops a record that was kept: the output at
    a threshold is a subsequence of the output at any higher threshold. *)
Theorem filter_similar_funds_monotone (df : list FundRow) (thr thr' : Z) :
  thr ≤ thr' →
  filter_similar_funds ratio df thr `sublist_of` filter_similar_funds ratio df thr'.
Proof.
  intros Hle. unfold filter_similar_funds. apply filter_sublist_impl.
  intros row _. rewrite !elem_of_funds_to_keep.
  intros (i & Hi & Hall). exists i. split; [done|].
  eapply Forall_impl; [exact Hall|]. simpl. intros. lia.
Qed.

(** When no record's name scores above the threshold against the name of an
    earlier record, the deduplicator returns its input as it is. *)
Theorem dissimilar_funds_untouched (df : list FundRow) (thr : Z) :
  (∀ (i j : nat) (r1 r2 : FundRow),
     (i < j)%nat → df !! i = Some r1 → df !! j = Some r2 →
     ratio (Fund r2) (Fund r1) ≤ thr) →
  filter_similar_funds ratio df thr = df.
Proof.
  intros Hfar. unfold filter_similar_funds.
  apply filter_keeps_all, Forall_forall. intros row Hrow.
  apply list_elem_of_lookup in Hrow as [j Hj].
  apply elem_of_funds_to_keep. exists j. split; [by rewrite list_lookup_fmap, Hj|].
  apply Forall_forall. intros name (i & Hi & Hlt)%elem_of_take.
  apply list_lookup_fmap_Some in Hi as (r1 & -> & Hi). eauto.
Qed.

(** Whether a record is kept is decided at the first record that carries its
    name: the record is kept if and only if no name before that first
    occurrence scores above the threshold against it. *)
Theorem kept_iff_first_occurrence_passes (df : list FundRow) (thr : Z)
    (row : FundRow) (k : nat) :
  row ∈ df →
  (Fund <$> df) !! k = Some (Fund row) →
  (∀ j : nat, (j < k)%nat → (Fund <$> df) !! j ≠ Some (Fund row)) →
  row ∈ filter_similar_funds ratio df thr ↔
  ∀ (j : nat) (earlier : FundRow),
    (j < k)%nat → df !! j = Some earlier → ratio (Fund row) (Fund earlier) ≤ thr.
Proof.
  intros Hrow Hk Hfirst. rewrite elem_of_filter_similar_funds. split.
  - intros (_ & i & Hi & Hall) j earlier Hlt Hj.
    assert (k ≤ i)%nat as Hki.
    { destruct (decide (k ≤ i)%nat) as [? | Hgt]; [done|].
      by destruct (Hfirst i ltac:(lia)). }
    rewrite Forall_forall in Hall. apply Hall, elem_of_take.
    exists j. split; [by rewrite list_lookup_fmap, Hj | lia].
  - intros Hpass. split; [done|]. exists k. split; [done|].
    apply Forall_forall. intros name (j & Hj & Hlt)%elem_of_take.
    apply list_lookup_fmap_Some in Hj as (earlier & -> & Hj). eauto.
Qed.

End DeduplicatorMore.

(** Raising the threshold from 85 to 100 on the chained names. *)
Lemma filter_similar_funds_monotone_witness :
  85 ≤ 100 ∧
  filter_similar_funds Fuzz.ratio chained_funds 85
    `sublist_of` filter_similar_funds Fuzz.ratio chained_funds 100.
Proof.
  split; [lia|].
  apply (filter_similar_funds_monotone Fuzz.ratio chained_funds 85 100). lia.
Defined.

(** "Orion" and "Vesta" score 0 against each other. *)
Lemma dissimilar_funds_untouched_witness :
  (∀ (i j : nat) (r1 r2 : FundRow),
     (i < j)%nat → unrelated_funds !! i = Some r1 → unrelated_funds !! j = Some r2 →
     Fuzz.ratio (Fund r2) (Fund r1) ≤ 85) ∧
  filter_similar_funds Fuzz.ratio unrelated_funds 85 = unrelated_funds.
Proof.
  assert (∀ (i j : nat) (r1 r2 : FundRow),
            (i < j)%nat → unrelated_funds !! i = Some r1 → unrelated_funds !! j = Some r2 →
            Fuzz.ratio (Fund r2) (Fund r1) ≤ 85) as Hfar.
  { intros i j r1 r2 Hlt Hi Hj.
    destruct i as [|[|i]]; destruct j as [|[|j]]; simpl in Hi, Hj;
      try lia; try discriminate.
    injection Hi as <-. injection Hj as <-. by vm_compute. }
  split; [exact Hfar|].
  exact (dissimilar_funds_untouched Fuzz.ratio unrelated_funds 85 Hfar).
Defined.

(** The second twin stands or falls with the first, which comes after
    "Orion": both are kept, since "Alpha Fund" scores 13 against "Orion". *)
Lemma kept_iff_first_occurrence_passes_witness :
  fund "F2" "Alpha Fund" ["MSFT"] ∈ late_twin_funds ∧
  (Fund <$> late_twin_funds) !! 1%nat = Some "Alpha Fund" ∧
  (∀ j : nat, (j < 1)%nat → (Fund <$> late_twin_funds) !! j ≠ Some "Alpha Fund") ∧
  (fund "F2" "Alpha Fund" ["MSFT"] ∈ filter_similar_funds Fuzz.ratio late_twin_funds 85 ↔
   ∀ (j : nat) (earlier : FundRow),
     (j < 1)%nat → late_twin_funds !! j = Some earlier →
     Fuzz.ratio "Alpha Fund" (Fund earlier) ≤ 85).
Proof.
  assert (fund "F2" "Alpha Fund" ["MSFT"] ∈ late_twin_funds) as Hin
    by (apply list_elem_of_lookup; by exists 2%nat).
  assert (∀ j : nat, (j < 1)%nat → (Fund <$> late_twin_funds) !! j ≠ Some "Alpha Fund")
    as Hfirst.
  { intros j Hj. destruct j as [|j]; [|lia]. by vm_compute. }
  split; [exact Hin|]. split; [reflexivity|]. split; [exact Hfirst|].
  exact (kept_iff_first_occurrence_passes Fuzz.ratio late_twin_funds 85
           (fund "F2" "Alpha Fund" ["MSFT"]) 1 Hin eq_refl Hfirst).
Defined.

(** * Further properties of the tally *)

Lemma insert_desc_perm (row : string * Z) (sorted : StockCounts) :
  Pandas.insert_desc row sorted ≡ₚ row :: sorted.
Proof.
  induction sorted as [|r rest IH]; simpl; [done|].
  case_bool_decide; [done|]. rewrite IH. apply Permutation_swap.
Qed.

Lemma sort_desc_perm (counts : StockCounts) : Pandas.sort_desc counts ≡ₚ counts.
Proof.
  induction counts as [|row rest IH]; simpl; [done|].
  by rewrite insert_desc_perm, IH.
Qed.

Lemma unique_NoDup (stocks : list string) : NoDup (Pandas.unique stocks).
Proof.
  induction stocks as [|s rest IH]; [constructor|].
  change (Pandas.unique (s :: rest)) with (s :: filter (λ x, x ≠ s) (Pandas.unique rest)).
  apply NoDup_cons. split; [|by apply NoDup_filter].
  intros [? _]%list_elem_of_filter. done.
Qed.

Lemma value_counts_index (stocks : list string) :
  (Pandas.value_counts stocks).*1 ≡ₚ Pandas.unique stocks.
Proof.
  unfold Pandas.value_counts. rewrite sort_desc_perm.
  rewrite <- list_fmap_compose. by rewrite <- (list_fmap_id (Pandas.unique stocks)) at 2.
Qed.

Lemma filter_index_NoDup (P : string * Z → Prop) `{∀ x, Decision (P x)} (df : StockCounts) :
  NoDup df.*1 → NoDup (filter P df).*1.
Proof.
  induction df as [|row rest IH]; [done|].
  rewrite fmap_cons, NoDup_cons. intros [Hfresh Hrest].
  rewrite filter_cons. case_decide; [|by apply IH].
  rewrite fmap_cons. apply NoDup_cons. split; [|by apply IH].
  intros (x & Hkey & Hx)%list_elem_of_fmap. apply Hfresh.
  apply list_elem_of_filter in Hx as [_ Hx].
  rewrite Hkey. by apply list_elem_of_fmap_2.
Qed.

Lemma insert_desc_sorted (row : string * Z) (sorted : StockCounts) :
  StronglySorted by_count_desc sorted →
  StronglySorted by_count_desc (Pandas.insert_desc row sorted).
Proof.
  induction sorted as [|r rest IH]; simpl; intros Hsorted.
  - repeat constructor.
  - apply StronglySorted_cons in Hsorted as [Hr Hrest].
    case_bool_decide as Hle.
    + apply StronglySorted_cons. split; [|by apply StronglySorted_cons].
      constructor; [done|]. eapply Forall_impl; [exact Hr|].
      unfold by_count_desc. intros. lia.
    + apply StronglySorted_cons. split; [|by apply IH].
      apply Forall_forall. intros x [-> | Hx]%elem_of_insert_desc.
      * unfold by_count_desc. lia.
      * rewrite Forall_forall in Hr. by apply Hr.
Qed.

Lemma sort_desc_sorted (counts : StockCounts) :
  StronglySorted by_count_desc (Pandas.sort_desc counts).
Proof.
  induction counts as [|row rest IH]; simpl; [constructor|].
  by apply insert_desc_sorted.
Qed.

Lemma filter_sorted (P : string * Z → Prop) `{∀ x, Decision (P x)} (df : StockCounts) :
  StronglySorted by_count_desc df → StronglySorted by_count_desc (filter P df).
Proof.
  induction df as [|row rest IH]; [done|].
  intros [Hrow Hrest]%StronglySorted_cons.
  rewrite filter_cons. case_decide; [|by apply IH].
  apply StronglySorted_cons. split; [|by apply IH].
  apply Forall_forall. intros x [_ Hx]%list_elem_of_filter.
  rewrite Forall_forall in Hrow. by apply Hrow.
Qed.

(** The tally lists exactly the qualifying tickers: a row is in the frame if
    and only if its ticker occurs in the stock lists, is not GOOG, and its
    count, the number of occurrences, reaches the minimum. *)
Theorem tally_lists_exactly_qualifying (df : list FundRow) (min_appearances : Z) :
  ∃ out : StockCounts,
    process_stock_appearances df min_appearances = Ok out ∧
    ∀ (stock : string) (count : Z),
      (stock, count) ∈ out ↔
      stock ∈ all_stocks df ∧ stock ≠ "GOOG" ∧
      count = Pandas.appearances stock (all_stocks df) ∧ min_appearances ≤ count.
Proof.
  eexists. split; [apply process_stock_appearances_eq|].
  intros stock count. apply elem_of_process_stock_appearances.
Qed.

(** The tally has one row per ticker: no ticker is listed twice. *)
Theorem tally_index_unique (df : list FundRow) (min_appearances : Z) :
  ∃ out : StockCounts,
    process_stock_appearances df min_appearances = Ok out ∧ NoDup out.*1.
Proof.
  eexists. split; [apply process_stock_appearances_eq|].
  do 2 apply filter_index_NoDup.
  rewrite value_counts_index. apply unique_NoDup.
Qed.

(** The rows of the tally come in descending order of their count. *)
Theorem tally_sorted_by_count (df : list FundRow) (min_appearances : Z) :
  ∃ out : StockCounts,
    process_stock_appearances df min_appearances = Ok out ∧
    StronglySorted by_count_desc out.
Proof.
  eexists. split; [apply process_stock_appearances_eq|].
  do 2 apply filter_sorted. apply sort_desc_sorted.
Qed.

(** A higher minimum only removes rows: the tally at a minimum is a
    subsequence of the tally at any lower minimum. *)
Theorem tally_monotone_in_minimum (df : list FundRow) (low high : Z) :
  low ≤ high →
  ∃ out_low out_high : StockCounts,
    process_stock_appearances df low = Ok out_low ∧
    process_stock_appearances df high = Ok out_high ∧
    out_high `sublist_of` out_low.
Proof.
  intros Hle. do 2 eexists.
  split; [apply process_stock_appearances_eq|].
  split; [apply process_stock_appearances_eq|].
  apply filter_sublist_impl. intros row _. lia.
Qed.

Lemma tally_monotone_in_minimum_witness :
  1 ≤ 2 ∧
  ∃ out_low out_high : StockCounts,
    process_stock_appearances three_funds 1 = Ok out_low ∧
    process_stock_appearances three_funds 2 = Ok out_high ∧
    out_high `sublist_of` out_low.
Proof.
  split; [lia|]. apply (tally_monotone_in_minimum three_funds 1 2). lia.
Defined.

(** ** What a count counts *)

Lemma appearances_app (stock : string) (l1 l2 : list string) :
  Pandas.appearances stock (l1 ++ l2)
  = Pandas.appearances stock l1 + Pandas.appearances stock l2.
Proof. unfold Pandas.appearances. rewrite filter_app, length_app. lia. Qed.

Lemma appearances_nonneg (stock : string) (l : list string) :
  0 ≤ Pandas.appearances stock l.
Proof. unfold Pandas.appearances. lia. Qed.

Lemma appearances_elem_of (stock : string) (l : list string) :
  stock ∈ l → 1 ≤ Pandas.appearances stock l.
Proof.
  unfold Pandas.appearances. induction l as [|x l IH]; [by intros ?%elem_of_nil|].
  intros Hin. rewrite filter_cons. case_decide as Hx; simpl; [lia|].
  apply elem_of_cons in Hin as [-> | Hin]; [done|]. by apply IH.
Qed.

Lemma appearances_not_elem_of (stock : string) (l : list string) :
  stock ∉ l → Pandas.appearances stock l = 0.
Proof.
  intros Hout. unfold Pandas.appearances.
  rewrite filter_keeps_none; [done|].
  apply Forall_forall. by intros x Hx ->.
Qed.

Lemma appearances_NoDup (stock : string) (l : list string) :
  NoDup l → stock ∈ l → Pandas.appearances stock l = 1.
Proof.
  induction 1 as [|x l Hfresh _ IH]; [by intros ?%elem_of_nil|].
  change (x :: l) with ([x] ++ l). rewrite appearances_app.
  intros [<- | Hin]%elem_of_cons.
  - rewrite (appearances_not_elem_of stock l) by done.
    unfold Pandas.appearances. by rewrite filter_cons_True.
  - rewrite IH by done. rewrite appearances_not_elem_of; [done|].
    intros ->%list_elem_of_singleton. done.
Qed.

Lemma all_stocks_cons (row : FundRow) (df : list FundRow) :
  all_stocks (row :: df) = Stocks row ++ all_stocks df.
Proof.
  unfold all_stocks. rewrite fmap_cons, filter_cons.
  case_decide as Hempty; [done|].
  assert (Stocks row = []) as Hnil.
  { destruct (decide (Stocks row = [])) as [? | Hne]; [done | by destruct Hempty]. }
  by rewrite Hnil.
Qed.

Lemma elem_of_all_stocks (stock : string) (df : list FundRow) :
  stock ∈ all_stocks df ↔ ∃ row : FundRow, row ∈ df ∧ stock ∈ Stocks row.
Proof.
  induction df as [|row df IH].
  - split; [by intros ?%elem_of_nil | by intros (? & ?%elem_of_nil & _)].
  - rewrite all_stocks_cons, elem_of_app, IH. split.
    + intros [? | (r & ? & ?)]; [exists row | exists r]; split; auto; by constructor.
    + intros (r & [-> | ?]%elem_of_cons & ?); [by left | right; eauto].
Qed.

Lemma holders_le_appearances (stock : string) (df : list FundRow) :
  Z.of_nat (length (filter (λ row, stock ∈ Stocks row) df))
  ≤ Pandas.appearances stock (all_stocks df).
Proof.
  induction df as [|row df IH]; [done|].
  rewrite all_stocks_cons, appearances_app, filter_cons.
  case_decide as Hin; simpl.
  - apply appearances_elem_of in Hin. lia.
  - pose proof (appearances_nonneg stock (Stocks row)). lia.
Qed.

Lemma appearances_all_stocks (stock : string) (df : list FundRow) :
  Forall (λ row, NoDup (Stocks row)) df →
  Pandas.appearances stock (all_stocks df)
  = Z.of_nat (length (filter (λ row, stock ∈ Stocks row) df)).
Proof.
  induction 1 as [|row df Hrow _ IH]; [done|].
  rewrite all_stocks_cons, appearances_app, filter_cons, IH.
  case_decide as Hin; simpl.
  - rewrite appearances_NoDup by done. lia.
  - by rewrite appearances_not_elem_of.
Qed.

(** When no record lists a ticker twice, the count the tally shows for a
    ticker is the number of records that hold it. *)
Theorem count_is_number_of_holders (df : list FundRow) (min_appearances : Z) :
  Forall (λ row, NoDup (Stocks row)) df →
  ∃ out : StockCounts,
    process_stock_appearances df min_appearances = Ok out ∧
    ∀ (stock : string) (count : Z),
      (stock, count) ∈ out →
      count = Z.of_nat (length (filter (λ row, stock ∈ Stocks row) df)).
Proof.
  intros Hnodup. eexists. split; [apply process_stock_appearances_eq|].
  intros stock count (_ & _ & -> & _)%elem_of_process_stock_appearances.
  by apply appearances_all_stocks.
Qed.

Lemma count_is_number_of_holders_witness :
  Forall (λ row, NoDup (Stocks row)) three_funds ∧
  ∃ out : StockCounts,
    process_stock_appearances three_funds 2 = Ok out ∧
    ∀ (stock : string) (count : Z),
      (stock, count) ∈ out →
      count = Z.of_nat (length (filter (λ row, stock ∈ Stocks row) three_funds)).
Proof.
  assert (Forall (λ row, NoDup (Stocks row)) three_funds) as Hnodup by compute_done.
  split; [exact Hnodup|].
  exact (count_is_number_of_holders three_funds 2 Hnodup).
Defined.

(** A count never falls short of the number of records that hold the ticker:
    a record that lists a ticker more than once adds more than one. *)
Theorem count_at_least_number_of_holders (df : list FundRow) (min_appearances : Z) :
  ∃ out : StockCounts,
    process_stock_appearances df min_appearances = Ok out ∧
    ∀ (stock : string) (count : Z),
      (stock, count) ∈ out →
      Z.of_nat (length (filter (λ row, stock ∈ Stocks row) df)) ≤ count.
Proof.
  eexists. split; [apply process_stock_appearances_eq|].
  intros stock count (_ & _ & -> & _)%elem_of_process_stock_appearances.
  apply holders_le_appearances.
Qed.

(** * Further properties of the fetch loop and of the page *)

Section PipelineMore.

Variable ratio : string → string → Z.
Variable get_morningstar_data : Z → Headers → option ScreenerJson.
Variable holdings : string → option (list Holding).

(** When the body of the inner [try] appends a record, and which one. *)
Lemma fund_of_row_Some (row : ScreenerRow) (f : FundRow) :
  fund_of_row holdings row = Some f ↔
  ∃ hs : list Holding,
    SecId row = Some (Id f) ∧ holdings (Id f) = Some hs ∧
    Stocks f = ticker <$> take 10 (filter (λ hd, country hd = "United States") hs) ∧
    Stocks f ≠ [] ∧
    LegalName row = Some (Fund f) ∧ ReturnM120 row = Some (Return10A f).
Proof.
  unfold fund_of_row. destruct f as [id name ret stocks]. simpl.
  destruct (SecId row) as [sec|]; simpl; [|split; [done | by intros (? & ? & _)]].
  destruct (holdings sec) as [hs|] eqn:Hhs; simpl.
  - destruct (ticker <$> take 10 (filter _ hs)) as [|t ts] eqn:Hus.
    + split; [done|]. intros (hs' & [= <-] & Hhs' & -> & Hne & _).
      rewrite Hhs in Hhs'. injection Hhs' as <-. by rewrite Hus in Hne.
    + destruct (LegalName row) as [n|]; simpl;
        [|split; [done | by intros (? & _ & _ & _ & _ & ? & _)]].
      destruct (ReturnM120 row) as [r|]; simpl;
        [|split; [done | by intros (? & _ & _ & _ & _ & _ & ?)]].
      split.
      * intros [= <- <- <- <-]. exists hs. by rewrite Hus.
      * intros (hs' & [= <-] & Hhs' & -> & _ & [= <-] & [= <-]).
        rewrite Hhs in Hhs'. injection Hhs' as <-. by rewrite Hus.
  - split; [done|]. intros (hs' & [= <-] & Hhs' & _). by rewrite Hhs in Hhs'.
Qed.

(** The records of a row loop: a record comes from a row that passes the
    category test and whose inner [try] appends it, provided the test raised
    on no row before it. *)
Lemma elem_of_funds_of_rows (page_rows : list ScreenerRow) (f : FundRow) :
  f ∈ funds_of_rows holdings page_rows ↔
  ∃ (i : nat) (row : ScreenerRow),
    page_rows !! i = Some row ∧
    (∀ (j : nat) (earlier : ScreenerRow),
       (j < i)%nat → page_rows !! j = Some earlier →
       ∃ b : bool, rv_in_category earlier = Ok b) ∧
    rv_in_category row = Ok true ∧
    fund_of_row holdings row = Some f.
Proof.
  induction page_rows as [|row0 rest IH]; simpl.
  - split; [by intros ?%elem_of_nil | by intros (? & ? & ? & _)].
  - assert ((∃ (i : nat) (row : ScreenerRow),
               (row0 :: rest) !! i = Some row ∧
               (∀ (j : nat) (earlier : ScreenerRow),
                  (j < i)%nat → (row0 :: rest) !! j = Some earlier →
                  ∃ b : bool, rv_in_category earlier = Ok b) ∧
               rv_in_category row = Ok true ∧ fund_of_row holdings row = Some f) ↔
            (rv_in_category row0 = Ok true ∧ fund_of_row holdings row0 = Some f) ∨
            ((∃ b : bool, rv_in_category row0 = Ok b) ∧
             f ∈ funds_of_rows holdings rest)) as ->.
    { rewrite IH. split.
      - intros ([|i] & row & Hi & Hearlier & Htest & Hf).
        + injection Hi as <-. by left.
        + right. split; [by apply (Hearlier 0%nat row0 ltac:(lia))|].
          exists i, row. split; [done|]. split; [|done].
          intros j earlier Hlt Hj. apply (Hearlier (S j) earlier ltac:(lia) Hj).
      - intros [[Htest Hf] | [Hok (i & row & Hi & Hearlier & Htest & Hf)]].
        + exists 0%nat, row0. split; [done|]. split; [|done]. intros j ? Hlt. lia.
        + exists (S i), row. split; [done|]. split; [|done].
          intros [|j] earlier Hlt Hj; [by injection Hj as <- |].
          apply (Hearlier j earlier ltac:(lia) Hj). }
    destruct (rv_in_category row0) as [[|]|e] eqn:Htest.
    + destruct (fund_of_row holdings row0) as [f0|] eqn:Hf0.
      * rewrite elem_of_cons. split.
        -- intros [-> | ?]; [by left | right; eauto].
        -- intros [[_ [= ->]] | [_ ?]]; [by left | by right].
      * split; [right; eauto | by intros [[_ ?] | [_ ?]]].
    + split; [right; eauto | by intros [[? _] | [_ ?]]].
    + split; [by intros ?%elem_of_nil | by intros [[? _] | [[? ?] _]]].
Qed.

Lemma elem_of_funds_of_page (h : Headers) (page : Z) (f : FundRow) :
  f ∈ funds_of_page get_morningstar_data holdings h page →
  ∃ (funds_json : ScreenerJson) (row : ScreenerRow),
    get_morningstar_data page h = Some funds_json ∧
    row ∈ default [] (rows funds_json) ∧
    rv_in_category row = Ok true ∧
    fund_of_row holdings row = Some f.
Proof.
  unfold funds_of_page. destruct (get_morningstar_data page h) as [funds_json|].
  - intros (i & row & Hi & _ & Htest & Hf)%elem_of_funds_of_rows.
    exists funds_json, row. split; [done|]. split; [|done].
    by eapply list_elem_of_lookup_2.
  - by intros ?%elem_of_nil.
Qed.

(** A record enters [fund_data] from a page exactly when the page was
    fetched, the category test raised on no earlier row of the page, and the
    record's row passes the test ("RV" is in its category), carries the three
    keys, and has a holdings lookup that succeeds with at least one holding
    in the United States; the record pairs the row's id, name and return
    with the tickers of the first ten such holdings.  A row that fails the
    test, lacks a key or whose lookup raises contributes nothing and does not
    keep later rows from contributing; a row on which the test raises (a null
    category, say) ends the page. *)
Theorem fetched_record_origin (h : Headers) (page : Z) (f : FundRow) :
  f ∈ funds_of_page get_morningstar_data holdings h page ↔
  ∃ (funds_json : ScreenerJson) (i : nat) (row : ScreenerRow) (hs : list Holding),
    get_morningstar_data page h = Some funds_json ∧
    default [] (rows funds_json) !! i = Some row ∧
    (∀ (j : nat) (earlier : ScreenerRow),
       (j < i)%nat → default [] (rows funds_json) !! j = Some earlier →
       ∃ b : bool, rv_in_category earlier = Ok b) ∧
    rv_in_category row = Ok true ∧
    SecId row = Some (Id f) ∧ LegalName row = Some (Fund f) ∧
    ReturnM120 row = Some (Return10A f) ∧
    holdings (Id f) = Some hs ∧
    Stocks f = ticker <$> take 10 (filter (λ hd, country hd = "United States") hs) ∧
    Stocks f ≠ [].
Proof.
  unfold funds_of_page. split.
  - destruct (get_morningstar_data page h) as [funds_json|];
      [|by intros ?%elem_of_nil].
    intros (i & row & Hi & Hearlier & Htest & Hf)%elem_of_funds_of_rows.
    apply fund_of_row_Some in Hf as (hs & ? & ? & ? & ? & ? & ?).
    by exists funds_json, i, row, hs.
  - intros (json & i & row & hs & -> & Hi & Hearlier & Htest & ? & ? & ? & ? & ? & ?).
    apply elem_of_funds_of_rows. exists i, row. repeat split; [done..|].
    apply fund_of_row_Some. by exists hs.
Qed.

(** Every fetched record holds at least one ticker and at most ten. *)
Theorem fetched_record_stock_bounds (h : Headers) (page : Z) (f : FundRow) :
  f ∈ funds_of_page get_morningstar_data holdings h page →
  (1 ≤ length (Stocks f) ≤ 10)%nat.
Proof.
  intros (_ & row & _ & _ & _ & Hf)%elem_of_funds_of_page.
  apply fund_of_row_Some in Hf as (hs & _ & _ & Hstocks & Hne & _).
  split.
  - destruct (Stocks f); [done | simpl; lia].
  - rewrite Hstocks, length_fmap, length_take. lia.
Qed.

Lemma elem_of_load_data (min_appearances similarity_threshold : Z) (h : Headers)
    (stock : string) (count : Z) :
  (stock, count)
    ∈ load_data ratio get_morningstar_data holdings min_appearances similarity_threshold h ↔
  (stock, count)
    ∈ filter (λ row, min_appearances_default ≤ row.2)
        (filter (λ row, row.1 ≠ "GOOG")
           (Pandas.value_counts
              (all_stocks
                 (filter_similar_funds ratio
                    (funds_of_page get_morningstar_data holdings h 1
                       ++ funds_of_page get_morningstar_data holdings h 2)
                    similarity_threshold_default)))).
Proof.
  unfold load_data, get_funds. destruct (_ ++ _) eqn:Hdata.
  - split; [by intros ?%elem_of_nil|].
    by intros (Hin%elem_of_nil & _)%elem_of_process_stock_appearances.
  - rewrite process_stock_appearances_eq. by destruct (filter _ _).
Qed.

(** Every ticker the page shows is the ticker of a holding in the United
    States of a fund of page 1 or 2 whose category contains "RV"; it is not
    GOOG, and it is shown with at least 4 appearances. *)
Theorem displayed_tickers_are_us_holdings
    (min_appearances similarity_threshold : Z) (h : Headers)
    (stock : string) (count : Z) :
  (stock, count)
    ∈ load_data ratio get_morningstar_data holdings min_appearances similarity_threshold h →
  stock ≠ "GOOG" ∧ 4 ≤ count ∧
  ∃ (page : Z) (funds_json : ScreenerJson) (row : ScreenerRow) (category : json)
    (sec_id : string) (hs : list Holding) (hd : Holding),
    (page = 1 ∨ page = 2) ∧
    get_morningstar_data page h = Some funds_json ∧
    row ∈ default [] (rows funds_json) ∧
    CategoryName row = Some category ∧ py_in "RV" category = Ok true ∧
    SecId row = Some sec_id ∧ holdings sec_id = Some hs ∧
    hd ∈ hs ∧ country hd = "United States" ∧ ticker hd = stock.
Proof.
  intros (Hin & Hne & _ & Hmin)%elem_of_load_data%elem_of_process_stock_appearances.
  split; [done|]. split; [done|].
  apply elem_of_all_stocks in Hin as (f & Hf & Hstock).
  apply list_elem_of_filter in Hf as [_ Hf].
  assert (∃ page, (page = 1 ∨ page = 2) ∧
                  f ∈ funds_of_page get_morningstar_data holdings h page)
    as (page & Hpage & Hfetched).
  { apply elem_of_app in Hf as [? | ?]; [exists 1 | exists 2]; auto. }
  apply elem_of_funds_of_page in Hfetched as (json & row & Hget & Hrow & Hrv & Hfund).
  apply fund_of_row_Some in Hfund as (hs & Hsec & Hhs & Hstocks & _).
  unfold rv_in_category in Hrv.
  destruct (CategoryName row) as [category|] eqn:Hcat; [|by vm_compute in Hrv].
  simpl in Hrv.
  rewrite Hstocks in Hstock. apply list_elem_of_fmap in Hstock as (hd & -> & Hhd).
  assert (hd ∈ filter (λ hd, country hd = "United States") hs) as Hhd'
    by (eapply elem_of_sublist; [exact Hhd | apply sublist_take]).
  apply list_elem_of_filter in Hhd' as [Hus Hhd'].
  by exists page, json, row, category, (Id f), hs, hd.
Qed.

(** When no holdings lookup lists a ticker twice, the count shown for a
    ticker is the number of funds, among those the deduplicator kept, that
    hold it among their first ten holdings in the United States; so it does
    not exceed the number of fetched funds. *)
Theorem displayed_count_is_number_of_funds
    (min_appearances similarity_threshold : Z) (h : Headers)
    (stock : string) (count : Z) :
  (∀ (sec_id : string) (hs : list Holding),
     holdings sec_id = Some hs → NoDup (ticker <$> hs)) →
  (stock, count)
    ∈ load_data ratio get_morningstar_data holdings min_appearances similarity_threshold h →
  count
  = Z.of_nat (length (filter (λ f, stock ∈ Stocks f)
       (filter_similar_funds ratio
          (funds_of_page get_morningstar_data holdings h 1
             ++ funds_of_page get_morningstar_data holdings h 2)
          similarity_threshold_default))) ∧
  count ≤ Z.of_nat (length (funds_of_page get_morningstar_data holdings h 1
                              ++ funds_of_page get_morningstar_data holdings h 2)).
Proof.
  intros Hnodup (_ & _ & -> & _)%elem_of_load_data%elem_of_process_stock_appearances.
  rewrite appearances_all_stocks.
  - split; [done|]. apply inj_le.
    etrans; [apply length_filter|]. apply length_filter.
  - apply Forall_forall. intros f [_ Hf]%list_elem_of_filter.
    assert (∃ page, f ∈ funds_of_page get_morningstar_data holdings h page)
      as (page & Hfetched)
      by (apply elem_of_app in Hf as [? | ?]; eauto).
    apply elem_of_funds_of_page in Hfetched as (_ & row & _ & _ & _ & Hfund).
    apply fund_of_row_Some in Hfund as (hs & _ & Hhs & -> & _).
    apply (sublist_NoDup _ (ticker <$> hs)); [exact (Hnodup _ _ Hhs)|].
    apply fmap_sublist. etrans; [apply sublist_take | apply sublist_filter].
Qed.

End PipelineMore.

(** The first fund of the four-fund screener, with twelve holdings of which
    eleven are in the United States: ten tickers are recorded. *)
Lemma fetched_record_stock_bounds_witness :
  fund "F1" "Orion" ["AAPL"; "MSFT"; "NVDA"; "AMZN"; "META"; "TSLA"; "AVGO"; "JPM"; "LLY"; "V"]
    ∈ funds_of_page four_funds_screener twelve_holdings headers 1 ∧
  (1 ≤ length (Stocks (fund "F1" "Orion"
        ["AAPL"; "MSFT"; "NVDA"; "AMZN"; "META"; "TSLA"; "AVGO"; "JPM"; "LLY"; "V"])) ≤ 10)%nat.
Proof.
  assert (fund "F1" "Orion"
            ["AAPL"; "MSFT"; "NVDA"; "AMZN"; "META"; "TSLA"; "AVGO"; "JPM"; "LLY"; "V"]
          ∈ funds_of_page four_funds_screener twelve_holdings headers 1) as Hin
    by (apply list_elem_of_lookup; exists 0%nat; by vm_compute).
  split; [exact Hin|].
  exact (fetched_record_stock_bounds four_funds_screener twelve_holdings headers 1 _ Hin).
Defined.

(** Four funds that hold AAPL in the United States and SAN in Spain. *)
Lemma displayed_tickers_are_us_holdings_witness :
  ("AAPL", 4) ∈ load_data Fuzz.ratio four_funds_screener apple_holdings 6 85 headers ∧
  "AAPL" ≠ "GOOG" ∧ 4 ≤ 4 ∧
  ∃ (page : Z) (funds_json : ScreenerJson) (row : ScreenerRow) (category : json)
    (sec_id : string) (hs : list Holding) (hd : Holding),
    (page = 1 ∨ page = 2) ∧
    four_funds_screener page headers = Some funds_json ∧
    row ∈ default [] (rows funds_json) ∧
    CategoryName row = Some category ∧ py_in "RV" category = Ok true ∧
    SecId row = Some sec_id ∧ apple_holdings sec_id = Some hs ∧
    hd ∈ hs ∧ country hd = "United States" ∧ ticker hd = "AAPL".
Proof.
  assert (("AAPL", 4) ∈ load_data Fuzz.ratio four_funds_screener apple_holdings 6 85 headers)
    as Hin by (apply list_elem_of_lookup; exists 0%nat; by vm_compute).
  split; [exact Hin|].
  exact (displayed_tickers_are_us_holdings Fuzz.ratio four_funds_screener apple_holdings
           6 85 headers "AAPL" 4 Hin).
Defined.

Lemma displayed_count_is_number_of_funds_witness :
  (∀ (sec_id : string) (hs : list Holding),
     apple_holdings sec_id = Some hs → NoDup (ticker <$> hs)) ∧
  ("AAPL", 4) ∈ load_data Fuzz.ratio four_funds_screener apple_holdings 6 85 headers ∧
  4 = Z.of_nat (length (filter (λ f, "AAPL" ∈ Stocks f)
        (filter_similar_funds Fuzz.ratio
           (funds_of_page four_funds_screener apple_holdings headers 1
              ++ funds_of_page four_funds_screener apple_holdings headers 2)
           similarity_threshold_default))) ∧
  4 ≤ Z.of_nat (length (funds_of_page four_funds_screener apple_holdings headers 1
                          ++ funds_of_page four_funds_screener apple_holdings headers 2)).
Proof.
  assert (∀ (sec_id : string) (hs : list Holding),
            apple_holdings sec_id = Some hs → NoDup (ticker <$> hs)) as Hnodup.
  { intros sec_id hs [= <-]. compute_done. }
  assert (("AAPL", 4) ∈ load_data Fuzz.ratio four_funds_screener apple_holdings 6 85 headers)
    as Hin by (apply list_elem_of_lookup; exists 0%nat; by vm_compute).
  split; [exact Hnodup|]. split; [exact Hin|].
  exact (displayed_count_is_number_of_funds Fuzz.ratio four_funds_screener apple_holdings
           6 85 headers "AAPL" 4 Hnodup Hin).
Defined.

(** * What the fetch loop looks at *)

Lemma omap_ext_in {A B} (f g : A → option B) (l : list A) :
  (∀ x, x ∈ l → f x = g x) → omap f l = omap g l.
Proof.
  induction l as [|x l IH]; intros Heq; [done|].
  assert (omap f l = omap g l) as Hrest
    by (apply IH; intros y Hy; apply Heq; by right).
  simpl. rewrite (Heq x) by left.
  destruct (g x); [f_equal|]; exact Hrest.
Qed.

(** The frame does not depend on the holdings of funds whose rows fail the
    category test: two lookup services that agree on the ids of the rows of
    pages 1 and 2 that pass the test give the same frame. *)
Theorem frame_independent_of_other_holdings (ratio : string → string → Z)
    (get_morningstar_data : Z → Headers → option ScreenerJson)
    (holdings holdings' : string → option (list Holding))
    (min_appearances similarity_threshold : Z) (h : Headers) :
  (∀ (page : Z) (funds_json : ScreenerJson) (row : ScreenerRow) (sec_id : string),
     page = 1 ∨ page = 2 →
     get_morningstar_data page h = Some funds_json →
     row ∈ default [] (rows funds_json) →
     rv_in_category row = Ok true →
     SecId row = Some sec_id →
     holdings sec_id = holdings' sec_id) →
  load_data ratio get_morningstar_data holdings min_appearances similarity_threshold h
  = load_data ratio get_morningstar_data holdings' min_appearances similarity_threshold h.
Proof.
  intros Hagree.
  assert (∀ page_rows : list ScreenerRow,
            (∀ (row : ScreenerRow) (sec_id : string),
               row ∈ page_rows → rv_in_category row = Ok true →
               SecId row = Some sec_id → holdings sec_id = holdings' sec_id) →
            funds_of_rows holdings page_rows = funds_of_rows holdings' page_rows)
    as Hrows.
  { induction page_rows as [|row rest IH]; intros Hsame; [done|]. simpl.
    assert (funds_of_rows holdings rest = funds_of_rows holdings' rest) as ->
      by (apply IH; intros r sec_id Hr; apply Hsame; by right).
    destruct (rv_in_category row) as [[|]|e] eqn:Htest; [|done..].
    assert (fund_of_row holdings row = fund_of_row holdings' row) as ->; [|done].
    unfold fund_of_row. destruct (SecId row) as [sec_id|] eqn:Hsec; [|done]. simpl.
    by rewrite (Hsame row sec_id) by (done || left). }
  assert (∀ page, page = 1 ∨ page = 2 →
            funds_of_page get_morningstar_data holdings h page
            = funds_of_page get_morningstar_data holdings' h page) as Hpage.
  { intros page Hp. unfold funds_of_page.
    destruct (get_morningstar_data page h) as [funds_json|] eqn:Hget; [|done].
    apply Hrows. intros row sec_id Hrow Htest Hsec.
    by apply (Hagree page funds_json row sec_id). }
  unfold load_data, get_funds. by rewrite !Hpage by auto.
Qed.

(** F5 is a bond fund after four equity funds that hold AAPL: whether its
    holdings are known makes no difference to the frame, AAPL with four
    appearances. *)
Lemma frame_independent_of_other_holdings_witness :
  (∀ (page : Z) (funds_json : ScreenerJson) (row : ScreenerRow) (sec_id : string),
     page = 1 ∨ page = 2 →
     mixed_screener page headers = Some funds_json →
     row ∈ default [] (rows funds_json) →
     rv_in_category row = Ok true →
     SecId row = Some sec_id →
     apple_holdings sec_id = all_but_f5_holdings sec_id) ∧
  load_data Fuzz.ratio mixed_screener apple_holdings 6 85 headers = [("AAPL", 4)] ∧
  load_data Fuzz.ratio mixed_screener apple_holdings 6 85 headers
  = load_data Fuzz.ratio mixed_screener all_but_f5_holdings 6 85 headers.
Proof.
  assert (∀ (page : Z) (funds_json : ScreenerJson) (row : ScreenerRow) (sec_id : string),
            page = 1 ∨ page = 2 →
            mixed_screener page headers = Some funds_json →
            row ∈ default [] (rows funds_json) →
            rv_in_category row = Ok true →
            SecId row = Some sec_id →
            apple_holdings sec_id = all_but_f5_holdings sec_id) as Hagree.
  { intros page json row sec_id [-> | ->] Hget Hrow Hrv Hsec;
      [|discriminate Hget].
    injection Hget as <-. vm_compute in Hrow.
    repeat (apply elem_of_cons in Hrow as [-> | Hrow]);
      solve [ by injection Hsec as <-
            | by vm_compute in Hrv
            | by apply elem_of_nil in Hrow ]. }
  split; [exact Hagree|]. split; [by vm_compute|].
  exact (frame_independent_of_other_holdings Fuzz.ratio mixed_screener
           apple_holdings all_but_f5_holdings 6 85 headers Hagree).
Defined.

(** A null category on the second row of a page: the first fund is recorded,
    the third is never read. *)
Lemma null_category_ends_page :
  funds_of_rows apple_holdings null_category_rows = [fund "F1" "Orion" ["AAPL"]].
Proof. reflexivity. Qed.

(** * The request *)

Lemma string_length_app (s1 s2 : string) :
  String.length (s1 +:+ s2) = (String.length s1 + String.length s2)%nat.
Proof. induction s1 as [|c s1 IH]; simpl; [done | by rewrite IH]. Qed.

Lemma string_app_inv_tail (s1 s2 tail : string) :
  s1 +:+ tail = s2 +:+ tail → s1 = s2.
Proof.
  revert s2. induction s1 as [|c1 s1 IH]; intros [|c2 s2] Heq.
  - done.
  - apply (f_equal String.length) in Heq.
    change (String.length tail = S (String.length (s2 +:+ tail))) in Heq.
    rewrite string_length_app in Heq. lia.
  - apply (f_equal String.length) in Heq.
    change (S (String.length (s1 +:+ tail)) = String.length tail) in Heq.
    rewrite string_length_app in Heq. lia.
  - injection Heq as -> Heq. f_equal. by apply IH.
Qed.

(** The address is the base address, the page as a decimal numeral, and a
    tail that does not depend on the page. *)
Lemma url_shape (page : Z) :
  Screener.url page
  = (Screener.base_url +:+ "?page=") +:+ pretty page
      +:+ "&pageSize=50&sortOrder=ReturnM120 desc&outputType=json&version=1&languageId=es-ES&currencyId=EUR&universeIds=FOESP$$ALL&securityDataPoints=SecId|LegalName|CategoryName|ReturnM120&filters=&term=&subUniverseId=".
Proof. reflexivity. Qed.

(** Different pages are requested at different addresses. *)
Theorem url_distinguishes_pages (page page' : Z) :
  page ≠ page' → Screener.url page ≠ Screener.url page'.
Proof.
  intros Hne Heq. apply Hne. rewrite !url_shape in Heq.
  apply String.app_inj, string_app_inv_tail in Heq.
  by apply (inj pretty).
Qed.

Lemma url_distinguishes_pages_witness :
  1 ≠ 2 ∧ Screener.url 1 ≠ Screener.url 2.
Proof.
  assert (1 ≠ 2) as Hne by lia.
  split; [exact Hne|]. exact (url_distinguishes_pages 1 2 Hne).
Defined.



(** * The metrics *)

Lemma foldl_max_first (first : Z) (rest : list Z) :
  Forall (λ c, c ≤ first) rest → foldl Z.max first rest = first.
Proof.
  induction 1 as [|c rest Hc _ IH]; [done|].
  simpl. by rewrite Z.max_l.
Qed.

Section Metrics.

Variable ratio : string → string → Z.
Variable get_morningstar_data : Z → Headers → option ScreenerJson.
Variable holdings : string → option (list Holding).

Lemma load_data_eq (min_appearances similarity_threshold : Z) (h : Headers) :
  load_data ratio get_morningstar_data holdings min_appearances similarity_threshold h
  = filter (λ row, min_appearances_default ≤ row.2)
      (filter (λ row, row.1 ≠ "GOOG")
         (Pandas.value_counts
            (all_stocks
               (filter_similar_funds ratio
                  (funds_of_page get_morningstar_data holdings h 1
                     ++ funds_of_page get_morningstar_data holdings h 2)
                  similarity_threshold_default)))).
Proof.
  unfold load_data, get_funds. destruct (_ ++ _); [done|].
  rewrite process_stock_appearances_eq. by destruct (filter _ _).
Qed.

(** When the page shows its metrics, the maximum it shows is the count in the
    first row of the table; no row has a larger count, and the maximum is at
    least 4.  The total is the number of rows. *)
Theorem metrics_of_displayed_frame (min_appearances similarity_threshold : Z)
    (h : Headers) (m : Metrics) :
  metrics (load_data ratio get_morningstar_data holdings
             min_appearances similarity_threshold h) = Some m →
  total_analysed m
  = length (load_data ratio get_morningstar_data holdings
              min_appearances similarity_threshold h) ∧
  (∃ stock : string,
     head (load_data ratio get_morningstar_data holdings
             min_appearances similarity_threshold h)
     = Some (stock, max_appearances m)) ∧
  (∀ (stock : string) (count : Z),
     (stock, count) ∈ load_data ratio get_morningstar_data holdings
                        min_appearances similarity_threshold h →
     count ≤ max_appearances m) ∧
  4 ≤ max_appearances m.
Proof.
  rewrite load_data_eq.
  remember (filter (λ row : string * Z, min_appearances_default ≤ row.2) _) as out
    eqn:Hout.
  assert (StronglySorted by_count_desc out) as Hsorted.
  { subst out. do 2 apply filter_sorted. apply sort_desc_sorted. }
  assert (∀ row, row ∈ out → min_appearances_default ≤ row.2) as Hmin.
  { subst out. by intros row [? _]%list_elem_of_filter. }
  clear Hout. destruct out as [|[first_stock first_count] rest]; [done|].
  apply StronglySorted_cons in Hsorted as [Hfirst _].
  assert (Forall (λ c, c ≤ first_count) rest.*2) as Hle.
  { apply Forall_fmap. eapply Forall_impl; [exact Hfirst|]. by intros [? ?]. }
  intros [= <-]. simpl. rewrite (foldl_max_first _ _ Hle).
  split; [done|]. split; [by exists first_stock|]. split.
  - intros stock count [[= -> ->] | Hrow]%elem_of_cons; [lia|].
    rewrite Forall_forall in Hfirst. by apply (Hfirst (stock, count)).
  - apply (Hmin (first_stock, first_count)). left.
Qed.

End Metrics.

Lemma metrics_of_displayed_frame_witness :
  metrics (load_data Fuzz.ratio four_funds_screener apple_holdings 6 85 headers)
  = Some {| total_analysed := 1; max_appearances := 4 |} ∧
  1%nat = length (load_data Fuzz.ratio four_funds_screener apple_holdings 6 85 headers) ∧
  (∃ stock : string,
     head (load_data Fuzz.ratio four_funds_screener apple_holdings 6 85 headers)
     = Some (stock, 4)) ∧
  (∀ (stock : string) (count : Z),
     (stock, count) ∈ load_data Fuzz.ratio four_funds_screener apple_holdings 6 85 headers →
     count ≤ 4) ∧
  4 ≤ 4.
Proof.
  assert (metrics (load_data Fuzz.ratio four_funds_screener apple_holdings 6 85 headers)
          = Some {| total_analysed := 1; max_appearances := 4 |}) as Hm by (by vm_compute).
  split; [exact Hm|].
  exact (metrics_of_displayed_frame Fuzz.ratio four_funds_screener apple_holdings
           6 85 headers {| total_analysed := 1; max_appearances := 4 |} Hm).
Defined.

